(** * Conversation bot: session store and dialogue state machine

    A shallow embedding of [main.go]: the per-user session record, the
    store that owns the sessions and snapshots them to disk, and
    [ProcessUpdate], the state machine that routes one inbound message.

    Conventions of the embedding.
    - Go [string] is a byte sequence: Rocq [string].
    - Go [int] / [int64] are [Z]; the program does no arithmetic on them.
    - [map[string]string] and [map[int64]*UserSession] are [gmap]s.  The
      records are those [NewStorage] and [GetOrCreateSession] build with
      [make]; a nil map or a nil session, which only a snapshot written by
      hand can give, is outside the model.
    - [bot.Send] appends to the list of messages sent so far; its result is
      dropped by the program and so is it here.  [log.Printf] is not
      modelled.
    - Ranging over a Go map visits the entries in an order the language
      leaves open; every function that ranges takes the order as an
      argument ([MapOrder]). *)

From Stdlib Require Import ZArith Ascii String List Permutation Lia Bool.
From Stdlib.Strings Require Import Byte.
From Stdlib Require Import Decimal DecimalString DecimalZ DecimalPos.
From stdpp Require Import base gmap strings list fin_maps sorting.
Import ListNotations.

Local Open Scope string_scope.
Local Open Scope Z_scope.

(** ** Go strings *)

Module GoString.

(** The line feed and the double quote, as one-byte strings. *)
Definition nl : string := String (ascii_of_nat 10) EmptyString.
Definition dquote : string := String (ascii_of_nat 34) EmptyString.

(** [strings.ToLower] on one byte of ASCII text: ['A'..'Z'] move to
    ['a'..'z']. *)
Definition lowerByte (c : ascii) : ascii :=
  let n := nat_of_ascii c in
  if ((65 <=? n) && (n <=? 90))%nat then ascii_of_nat (n + 32) else c.

(** [strings.ToLower].  Go lowers an ASCII string byte by byte, which is
    what this definition does; on text with bytes from 0x80 up Go goes
    through the Unicode tables, which are not modelled: such bytes are
    kept as they are. *)
Fixpoint ToLower (s : string) : string :=
  match s with
  | EmptyString => EmptyString
  | String c s' => String (lowerByte c) (ToLower s')
  end.

(** [strings.Join(elems, sep)]. *)
Fixpoint Join (elems : list string) (sep : string) : string :=
  match elems with
  | [] => EmptyString
  | x :: rest =>
      match rest with
      | [] => x
      | _ :: _ => x +:+ sep +:+ Join rest sep
      end
  end.

(** [drop n s]: the string [s[n:]] (empty when [n] is past the end). *)
Fixpoint drop (n : nat) (s : string) : string :=
  match n, s with
  | O, _ => s
  | S n', String _ s' => drop n' s'
  | S _, EmptyString => EmptyString
  end.

(** Is the byte at index [i] of [s] in [lo..hi]? *)
Definition byteIn (lo hi : nat) (i : nat) (s : string) : bool :=
  match String.get i s with
  | Some b => ((lo <=? nat_of_ascii b) && (nat_of_ascii b <=? hi))%nat
  | None => false
  end.

(** The width in bytes of the first rune of [s], as
    [utf8.DecodeRuneInString] reports it: the length of a well-formed
    UTF-8 sequence, and 1 for a byte that starts none. *)
Definition runeLen (s : string) : nat :=
  match s with
  | EmptyString => 0
  | String b0 rest =>
      let n0 := nat_of_ascii b0 in
      if (n0 <? 128)%nat then 1
      else if (n0 <? 194)%nat then 1
      else if (n0 <? 224)%nat then
        if byteIn 128 191 0 rest then 2 else 1
      else if (n0 <? 240)%nat then
        let lo := if (n0 =? 224)%nat then 160 else 128 in
        let hi := if (n0 =? 237)%nat then 159 else 191 in
        if byteIn lo hi 0 rest && byteIn 128 191 1 rest then 3 else 1
      else if (n0 <? 245)%nat then
        let lo := if (n0 =? 240)%nat then 144 else 128 in
        let hi := if (n0 =? 244)%nat then 143 else 191 in
        if byteIn lo hi 0 rest && byteIn 128 191 1 rest
           && byteIn 128 191 2 rest then 4 else 1
      else 1
  end%nat.

End GoString.

(** ** The regular expressions of [ProcessUpdate] *)

Module Regexp.
Import GoString.

(** The fragment of [regexp/syntax] the three patterns use.  [LitFold]
    is a literal under the flag [(?i)]. *)
Inductive Regexp : Type :=
| EmptyMatch
| Lit (c : ascii)
| LitFold (c : ascii)
| AnyCharNotNL
| Concat (r1 r2 : Regexp)
| Alternate (r1 r2 : Regexp).

(** [run r s]: what is left of [s] after each way [r] can match a prefix
    of it.  A literal takes one byte; [.] takes one rune that is not a
    line feed. *)
Fixpoint run (r : Regexp) (s : string) : list string :=
  match r with
  | EmptyMatch => [s]
  | Lit c =>
      match s with
      | String a s' => if Ascii.eqb a c then [s'] else []
      | EmptyString => []
      end
  | LitFold c =>
      match s with
      | String a s' => if Ascii.eqb (lowerByte a) (lowerByte c) then [s'] else []
      | EmptyString => []
      end
  | AnyCharNotNL =>
      match s with
      | String a _ =>
          if Ascii.eqb a (ascii_of_nat 10) then [] else [drop (runeLen s) s]
      | EmptyString => []
      end
  | Concat r1 r2 => flat_map (run r2) (run r1 s)
  | Alternate r1 r2 => run r1 s ++ run r2 s
  end.

Definition isEmpty (s : string) : bool :=
  match s with EmptyString => true | String _ _ => false end.

(** [MatchString] for a pattern written [^r$]: some match of [r] uses up
    the whole text.  (Without the flag [m], [$] is the end of the text.) *)
Definition MatchString (r : Regexp) (s : string) : bool :=
  existsb isEmpty (run r s).

(** The pattern that spells out [lit] ([fold]: under [(?i)]). *)
Fixpoint literal (fold : bool) (lit : string) : Regexp :=
  match lit with
  | EmptyString => EmptyMatch
  | String c rest =>
      Concat (if fold then LitFold c else Lit c) (literal fold rest)
  end.

(** [(?i)^Done$] *)
Definition reDone : Regexp := literal true "Done".

(** [^(Age|Favourite colour|Number of siblings)$] *)
Definition reRegular : Regexp :=
  Alternate (literal false "Age")
    (Alternate (literal false "Favourite colour")
       (literal false "Number of siblings")).

(** [^Something else...$]: the three dots are wildcards. *)
Definition reCustom : Regexp :=
  Concat (literal false "Something else")
    (Concat AnyCharNotNL (Concat AnyCharNotNL AnyCharNotNL)).

End Regexp.

(** ** Sessions and messages *)

Module Bot.
Import GoString Regexp.

(** [StateChoosing], [StateTypingReply], [StateTypingChoice]: the [iota]
    constants, in the order the source lists them. *)
Definition StateChoosing : Z := 0.
Definition StateTypingReply : Z := 1.
Definition StateTypingChoice : Z := 2.

(** [UserSession]: the state and data of one user. *)
Record UserSession : Type := mkUserSession {
  State : Z;
  CurrentKey : string;
  UserData : gmap string string;
  LastUpdated : Z
}.

Definition setState (v : Z) (session : UserSession) : UserSession :=
  mkUserSession v (CurrentKey session) (UserData session) (LastUpdated session).

Definition setCurrentKey (v : string) (session : UserSession) : UserSession :=
  mkUserSession (State session) v (UserData session) (LastUpdated session).

Definition setUserData (v : gmap string string) (session : UserSession)
  : UserSession :=
  mkUserSession (State session) (CurrentKey session) v (LastUpdated session).

Definition setLastUpdated (v : Z) (session : UserSession) : UserSession :=
  mkUserSession (State session) (CurrentKey session) (UserData session) v.

(** What [ProcessUpdate] reads of a [tgbotapi.Message].  The library's
    methods [IsCommand()] and [Command()] are taken as given with the
    message: [IsCommand] is the flag, [Command] the command name. *)
Record Message : Type := mkMessage {
  Text : string;
  IsCommand : bool;
  Command : string;
  ChatID : Z;
  FromID : Z;
  Date : Z
}.

(** [tgbotapi.Update]: [Msg] is the field [Message], a pointer that may be
    nil. *)
Record Update : Type := mkUpdate { Msg : option Message }.

(** The reply keyboards a message can carry. *)
Inductive ReplyMarkup : Type :=
| NoMarkup
| ReplyKeyboard (rows : list (list string))
| RemoveKeyboard (selective : bool).

(** [tgbotapi.MessageConfig], as far as the program fills it. *)
Record MessageConfig : Type := mkMessageConfig {
  ToChat : Z;
  Body : string;
  Markup : ReplyMarkup
}.

Definition NewMessage (chatID : Z) (text : string) : MessageConfig :=
  mkMessageConfig chatID text NoMarkup.

Definition setReplyMarkup (k : ReplyMarkup) (msg : MessageConfig)
  : MessageConfig :=
  mkMessageConfig (ToChat msg) (Body msg) k.

(** The bot, seen from the program: the messages sent so far, oldest
    first. *)
Definition BotAPI : Type := list MessageConfig.

Definition Send (bot : BotAPI) (msg : MessageConfig) : BotAPI :=
  (bot ++ [msg])%list.

Definition mainKeyboard : ReplyMarkup :=
  ReplyKeyboard
    [ ["Age"; "Favourite colour"];
      ["Number of siblings"; "Something else..."];
      ["Done"] ].

(** ** Map iteration *)

(** The order in which one [range] statement visits a map. *)
Definition MapOrder : Type := gmap string string -> list (string * string).

(** A [range] visits every entry once. *)
Definition visits_all (order : MapOrder) : Prop :=
  forall m, order m ≡ₚ map_to_list m.

(** ** Helper functions *)

(** The line [fmt.Sprintf] makes of one fact: key, space dash space,
    value. *)
Definition factLine (kv : string * string) : string :=
  fst kv +:+ " - " +:+ snd kv.

Definition factsToString (order : MapOrder) (userData : gmap string string)
  : string :=
  let facts :=
    fold_left (fun facts kv => (facts ++ [factLine kv])%list)
      (order userData) [] in
  Join facts nl.

(** ** Handlers

    Each handler takes the message of the update (the caller has checked
    that it is there), the session and the bot, and returns the session and
    the bot as it leaves them. *)

(** [handleStart] initiates the conversation. *)
Definition handleStart (order : MapOrder) (m : Message)
  (session : UserSession) (bot : BotAPI) : UserSession * BotAPI :=
  let reply := "Hi! My name is Doctor Botter." in
  let reply :=
    if (0 <? size (UserData session))%nat then
      let keys :=
        fold_left (fun keys kv => (keys ++ [fst kv])%list)
          (order (UserData session)) [] in
      reply +:+ " You already told me your " +:+ Join keys ", "
        +:+ ". Why don't you tell me something more about yourself? Or change anything I already know."
    else
      reply +:+ " I will hold a more complex conversation with you. Why don't you tell me something about yourself?" in
  let msg := NewMessage (ChatID m) reply in
  let msg := setReplyMarkup mainKeyboard msg in
  let bot := Send bot msg in
  let session := setState StateChoosing session in
  (session, bot).

(** [handleRegularChoice] handles predefined categories. *)
Definition handleRegularChoice (m : Message) (session : UserSession)
  (bot : BotAPI) : UserSession * BotAPI :=
  let text := ToLower (Text m) in
  let session := setCurrentKey text session in
  let replyText :=
    match UserData session !! text with
    | Some val =>
        "Your " +:+ text +:+ "? I already know the following about that: "
          +:+ val
    | None => "Your " +:+ text +:+ "? Yes, I would love to hear about that!"
    end in
  let msg := NewMessage (ChatID m) replyText in
  let bot := Send bot msg in
  let session := setState StateTypingReply session in
  (session, bot).

(** [handleCustomChoice] asks for a custom category name. *)
Definition handleCustomChoice (m : Message) (session : UserSession)
  (bot : BotAPI) : UserSession * BotAPI :=
  let msg :=
    NewMessage (ChatID m)
      ("Alright, please send me the category first, for example " +:+ dquote
         +:+ "Most impressive skill" +:+ dquote) in
  let bot := Send bot msg in
  let session := setState StateTypingChoice session in
  (session, bot).

(** [handleReceivedInformation] saves the user input. *)
Definition handleReceivedInformation (order : MapOrder) (m : Message)
  (session : UserSession) (bot : BotAPI) : UserSession * BotAPI :=
  let text := Text m in
  let category := CurrentKey session in
  let session :=
    setUserData (<[category := ToLower text]> (UserData session)) session in
  let session := setCurrentKey EmptyString session in
  let msgText :=
    "Neat! Just so you know, this is what you already told me:" +:+ nl
      +:+ factsToString order (UserData session) +:+ nl
      +:+ "You can tell me more, or change your opinion on something." in
  let msg := NewMessage (ChatID m) msgText in
  let msg := setReplyMarkup mainKeyboard msg in
  let bot := Send bot msg in
  let session := setState StateChoosing session in
  (session, bot).

(** [handleDone] finishes the interaction. *)
Definition handleDone (order : MapOrder) (m : Message)
  (session : UserSession) (bot : BotAPI) : UserSession * BotAPI :=
  let session := setCurrentKey EmptyString session in
  let msgText :=
    "I learned these facts about you:" +:+ nl
      +:+ factsToString order (UserData session) +:+ nl
      +:+ "Until next time!" in
  let msg := NewMessage (ChatID m) msgText in
  let msg := setReplyMarkup (RemoveKeyboard true) msg in
  let bot := Send bot msg in
  let session := setState StateChoosing session in
  (session, bot).

(** [handleShowData] displays gathered info (command handler). *)
Definition handleShowData (order : MapOrder) (m : Message)
  (session : UserSession) (bot : BotAPI) : UserSession * BotAPI :=
  let msgText :=
    "This is what you already told me:" +:+ nl
      +:+ factsToString order (UserData session) in
  let msg := NewMessage (ChatID m) msgText in
  let bot := Send bot msg in
  (session, bot).

(** [ProcessUpdate] routes the update based on state and content. *)
Definition ProcessUpdate (order : MapOrder) (update : Update)
  (session : UserSession) (bot : BotAPI) : UserSession * BotAPI :=
  match Msg update with
  | None => (session, bot)
  | Some m =>
      let text := Text m in
      if IsCommand m && String.eqb (Command m) "start" then
        handleStart order m session bot
      else if IsCommand m && String.eqb (Command m) "show_data" then
        handleShowData order m session bot
      else
        let isDone := MatchString reDone text in
        let isRegular := MatchString reRegular text in
        let isCustom := MatchString reCustom text in
        if State session =? StateChoosing then
          if isRegular then handleRegularChoice m session bot
          else if isCustom then handleCustomChoice m session bot
          else if isDone then handleDone order m session bot
          else (session, bot)
        else if State session =? StateTypingChoice then
          if negb isDone then
            let session := setCurrentKey (ToLower text) session in
            let replyText :=
              "Your " +:+ CurrentKey session
                +:+ "? Yes, I would love to hear about that!" in
            let msg := NewMessage (ChatID m) replyText in
            let bot := Send bot msg in
            let session := setState StateTypingReply session in
            (session, bot)
          else handleRegularChoice m session bot
        else if State session =? StateTypingReply then
          if negb isDone then handleReceivedInformation order m session bot
          else handleDone order m session bot
        else (session, bot)
  end.

End Bot.

(** ** The snapshot document *)

Module Json.
Import GoString Bot.

#[local] Set Warnings "-register-all".

(** A JSON value.  [Number] is a number written as an integer, [Float] one
    written with a fraction or an exponent, kept as written. *)
Inductive Value : Type :=
| Null
| Bool (b : bool)
| Number (n : Z)
| Float (lit : string)
| Str (s : string)
| Array (items : list Value)
| Object (members : list (string * Value)).

(** [strconv.FormatInt(n, 10)] *)
Definition FormatInt (n : Z) : string := NilZero.string_of_int (Z.to_int n).

(** The range of [int64], and of [int] on the 64-bit platforms the
    program is built for. *)
Definition fitsInt64 (n : Z) : bool := (- 2 ^ 63 <=? n) && (n <? 2 ^ 63).

Definition digitsValue (s : string) : option Z :=
  Z.of_uint <$> NilZero.uint_of_string s.

(** [strconv.ParseInt(s, 10, 64)]: a sign or none, then one decimal digit
    or more; [None] for an error of syntax or of range. *)
Definition ParseInt (s : string) : option Z :=
  n ← match s with
      | EmptyString => None
      | String a rest =>
          if Ascii.eqb a "-" then Z.opp <$> digitsValue rest
          else if Ascii.eqb a "+" then digitsValue rest
          else digitsValue s
      end;
  if fitsInt64 n then Some n else None.

(** *** Encoding

    [encoding/json] writes a map as an object whose members are sorted by
    key, and a struct as an object with one member for each field, named
    by the field's tag, in the order of the fields; a field tagged
    [omitempty] is left out when it is empty. *)

Definition keyLe (a b : string * Value) : Prop := String.le (fst a) (fst b).

#[export] Instance keyLe_dec : RelDecision keyLe :=
  fun a b => decide (String.le (fst a) (fst b)).

Definition sortByKey (members : list (string * Value))
  : list (string * Value) :=
  merge_sort keyLe members.

Definition encodeFact (kv : string * string) : string * Value :=
  (fst kv, Str (snd kv)).

(** [map[string]string] *)
Definition encodeFacts (userData : gmap string string) : Value :=
  Object (sortByKey (encodeFact <$> map_to_list userData)).

(** [UserSession], by its tags: [state], [current_key,omitempty],
    [user_data], [last_updated]. *)
Definition encodeSession (session : UserSession) : Value :=
  Object
    ([("state", Number (State session))]
       ++ (if Regexp.isEmpty (CurrentKey session) then []
           else [("current_key", Str (CurrentKey session))])
       ++ [("user_data", encodeFacts (UserData session));
           ("last_updated", Number (LastUpdated session))])%list.

Definition encodeEntry (entry : Z * UserSession) : string * Value :=
  (FormatInt (fst entry), encodeSession (snd entry)).

(** [map[int64]*UserSession] *)
Definition encodeSessions (sessions : gmap Z UserSession) : Value :=
  Object (sortByKey (encodeEntry <$> map_to_list sessions)).

(** *** Decoding

    The decoders give the result of [json.Unmarshal] on the documents whose
    members have the names and the types of the fields; they are [None] on
    any other document (a member that is null, of another type, or of
    another name; a session without [user_data]).  Members are stored in
    the order of the document, so of two members with one key the later
    stays. *)

Definition decodeFact (member : string * Value) : option (string * string) :=
  match snd member with
  | Str s => Some (fst member, s)
  | _ => None
  end.

Definition decodeFacts (v : Value) : option (gmap string string) :=
  match v with
  | Object members =>
      (fun facts => list_to_map (reverse facts)) <$> mapM decodeFact members
  | _ => None
  end.

(** One member of a session: [acc] is the session as filled so far, and
    whether its map of facts has been made. *)
Definition decodeField (acc : UserSession * bool) (member : string * Value)
  : option (UserSession * bool) :=
  let session := fst acc in
  let name := fst member in
  if String.eqb name "state" then
    match snd member with
    | Number n =>
        if fitsInt64 n then Some (setState n session, snd acc) else None
    | _ => None
    end
  else if String.eqb name "current_key" then
    match snd member with
    | Str s => Some (setCurrentKey s session, snd acc)
    | _ => None
    end
  else if String.eqb name "user_data" then
    facts ← decodeFacts (snd member);
    Some (setUserData (facts ∪ UserData session) session, true)
  else if String.eqb name "last_updated" then
    match snd member with
    | Number n =>
        if fitsInt64 n then Some (setLastUpdated n session, snd acc)
        else None
    | _ => None
    end
  else None.

Fixpoint decodeFields (acc : UserSession * bool)
  (members : list (string * Value)) : option (UserSession * bool) :=
  match members with
  | [] => Some acc
  | member :: rest =>
      acc' ← decodeField acc member; decodeFields acc' rest
  end.

Definition decodeSession (v : Value) : option UserSession :=
  match v with
  | Object members =>
      '(session, made) ←
        decodeFields (mkUserSession 0 EmptyString ∅ 0, false) members;
      if (made : bool) then Some session else None
  | _ => None
  end.

Definition decodeEntry (member : string * Value) : option (Z * UserSession) :=
  userID ← ParseInt (fst member);
  session ← decodeSession (snd member);
  Some (userID, session).

Definition decodeSessions (v : Value) : option (gmap Z UserSession) :=
  match v with
  | Object members =>
      (fun entries => list_to_map (reverse entries))
        <$> mapM decodeEntry members
  | _ => None
  end.

End Json.

(** ** The session store *)

Module Storage.
Import GoString Bot.

(** [ThreadSafeStorage].  The lock guards concurrent callers; the model is
    sequential and has none.  [Sessions] holds the records themselves: the
    pointer [GetOrCreateSession] hands out is the record under the user's
    key. *)
Record ThreadSafeStorage : Type := mkStorage {
  Sessions : gmap Z UserSession;
  FilePath : string
}.

Definition setSessions (v : gmap Z UserSession) (s : ThreadSafeStorage)
  : ThreadSafeStorage :=
  mkStorage v (FilePath s).

(** The record a fresh user gets: the fields the composite literal leaves
    out are zero. *)
Definition newSession : UserSession :=
  mkUserSession StateChoosing EmptyString ∅ 0.

#[export] Instance UserSession_inhabited : Inhabited UserSession :=
  populate newSession.

Definition GetSession (s : ThreadSafeStorage) (userID : Z)
  : option UserSession :=
  Sessions s !! userID.

Definition GetOrCreateSession (s : ThreadSafeStorage) (userID : Z)
  : ThreadSafeStorage * UserSession :=
  let s :=
    match Sessions s !! userID with
    | None => setSessions (<[userID := newSession]> (Sessions s)) s
    | Some _ => s
    end in
  (s, Sessions s !!! userID).

(** *** The snapshot file *)

(** The files of the disk, and the paths at which the system refuses to
    read or write. *)
Record FileSystem : Type := mkFileSystem {
  files : gmap string (list Byte.byte);
  denied : gset string
}.

Inductive PathError : Type := ErrNotExist | ErrPermission.

(** [os.ReadFile] *)
Definition ReadFile (fs : FileSystem) (name : string)
  : list Byte.byte + PathError :=
  if decide (name ∈ denied fs) then inr ErrPermission
  else
    match files fs !! name with
    | Some data => inl data
    | None => inr ErrNotExist
    end.

(** [os.WriteFile]: the disk after the call, and the error if there is
    one. *)
Definition WriteFile (fs : FileSystem) (name : string) (data : list Byte.byte)
  : FileSystem * option PathError :=
  if decide (name ∈ denied fs) then (fs, Some ErrPermission)
  else (mkFileSystem (<[name := data]> (files fs)) (denied fs), None).

Section Snapshot.

(** The snapshot is written and read by [encoding/json].  What the library
    makes of the program's types is in [Json]; the text of a document is
    the library's own matter:
    - [render v] is the indented text of the value [v];
    - [parse data] is the value the text [data] stands for, or [None] when
      it is not JSON;
    - [decodeOther v m] is what [json.Unmarshal] leaves of the map [m], and
      whether it reports an error, on a document [v] that [Json] does not
      decode. *)
Variable render : Json.Value -> list Byte.byte.
Variable parse : list Byte.byte -> option Json.Value.
Variable decodeOther :
  Json.Value -> gmap Z UserSession -> gmap Z UserSession * bool.

(** [json.MarshalIndent] of the sessions: the document, or [None] when the
    call returns an error (it has none to return for this type). *)
Definition MarshalIndent (sessions : gmap Z UserSession)
  : option (list Byte.byte) :=
  Some (render (Json.encodeSessions sessions)).

(** [json.Unmarshal(data, &sessions)]: the map as the call leaves it, and
    whether it returned an error.  Text that is not JSON leaves the map
    untouched; decoded sessions are added to the map and take the place of
    those with the same key. *)
Definition Unmarshal (data : list Byte.byte) (sessions : gmap Z UserSession)
  : gmap Z UserSession * bool :=
  match parse data with
  | None => (sessions, true)
  | Some v =>
      match Json.decodeSessions v with
      | Some decoded => (decoded ∪ sessions, false)
      | None => decodeOther v sessions
      end
  end.

(** [Save] dumps the in-memory store to a JSON file. *)
Definition Save (s : ThreadSafeStorage) (fs : FileSystem) : FileSystem :=
  match MarshalIndent (Sessions s) with
  | None => fs
  | Some data => fst (WriteFile fs (FilePath s) data)
  end.

(** [Load] reads the JSON file into memory. *)
Definition Load (s : ThreadSafeStorage) (fs : FileSystem)
  : ThreadSafeStorage :=
  match ReadFile fs (FilePath s) with
  | inr _ => s
  | inl data =>
      if (length data =? 0)%nat then s
      else setSessions (fst (Unmarshal data (Sessions s))) s
  end.

Definition NewStorage (filePath : string) (fs : FileSystem)
  : ThreadSafeStorage :=
  Load (mkStorage ∅ filePath) fs.

End Snapshot.

End Storage.

(** ** The loop of [main] *)

Module Dispatcher.
Import GoString Bot Storage.

(** What the loop works on: the store, the bot and the disk. *)
Definition World : Type := ThreadSafeStorage * BotAPI * FileSystem.

(** One turn of the loop [for update := range updates].  [step] is the
    update with the order in which the map happens to be ranged over while
    it is handled.  [session] is the pointer the store hands out:
    what [ProcessUpdate] writes through it is written to the record of
    [userID] in the store.  The sender [update.Message.From] is taken to
    be there. *)
Definition serveUpdate (render : Json.Value -> list Byte.byte)
  (world : World) (step : MapOrder * Update) : World :=
  let storage := fst (fst world) in
  let bot := snd (fst world) in
  let fs := snd world in
  match Msg (snd step) with
  | None => world
  | Some m =>
      let userID := FromID m in
      let created := GetOrCreateSession storage userID in
      let storage := fst created in
      let session := snd created in
      let processed := ProcessUpdate (fst step) (snd step) session bot in
      let storage :=
        setSessions (<[userID := fst processed]> (Sessions storage)) storage in
      let bot := snd processed in
      let fs := Save render storage fs in
      (storage, bot, fs)
  end.

(** The loop, over the updates the channel delivers. *)
Definition mainLoop (render : Json.Value -> list Byte.byte)
  (updates : list (MapOrder * Update)) (world : World) : World :=
  fold_left (serveUpdate render) updates world.

(** Is the update a message of the user [userID]? *)
Definition sentBy (userID : Z) (step : MapOrder * Update) : bool :=
  match Msg (snd step) with
  | Some m => bool_decide (FromID m = userID)
  | None => false
  end.

(** Does the update carry a message? *)
Definition hasMessage (step : MapOrder * Update) : bool :=
  match Msg (snd step) with Some _ => true | None => false end.

(** One update of a user, applied to their session; [None] is a user the
    store does not have yet. *)
Definition ownStep (session : option UserSession)
  (step : MapOrder * Update) : option UserSession :=
  Some (fst (ProcessUpdate (fst step) (snd step)
               (default newSession session) [])).

(** The identifiers, states and time stamps of a store are 64-bit
    integers. *)
Definition fitsStore (storage : ThreadSafeStorage) : Prop :=
  forall id u,
    Sessions storage !! id = Some u ->
    Json.fitsInt64 id = true
    /\ Json.fitsInt64 (State u) = true
    /\ Json.fitsInt64 (LastUpdated u) = true.

Definition fitsSender (step : MapOrder * Update) : Prop :=
  forall m, Msg (snd step) = Some m -> Json.fitsInt64 (FromID m) = true.

End Dispatcher.

(** ** Properties of sessions and texts *)

Module Dialogue.
Import GoString Regexp Bot Storage.

(** The three filters of [ProcessUpdate]. *)
Definition isDone (text : string) : bool := MatchString reDone text.
Definition isRegular (text : string) : bool := MatchString reRegular text.
Definition isCustom (text : string) : bool := MatchString reCustom text.


(** The texts the pattern for a regular category spells out. *)
Definition regularCategories : list string :=
  ["Age"; "Favourite colour"; "Number of siblings"].

(** [startsWith p s]: what follows the prefix [p] in [s]. *)
Fixpoint startsWith (p s : string) : option string :=
  match p, s with
  | EmptyString, _ => Some s
  | String c p', String a s' =>
      if Ascii.eqb a c then startsWith p' s' else None
  | String _ _, EmptyString => None
  end.


(** The sessions the state machine can bring a new user to. *)
Inductive reachable : UserSession -> Prop :=
| reachable_new : reachable newSession
| reachable_step order update session bot :
    reachable session ->
    visits_all order ->
    reachable (fst (ProcessUpdate order update session bot)).

(** Two texts that are the same but for the order in which they list the
    facts: either they are equal, or they have the same words around the
    lines of the facts, or around the names of the categories, taken in
    two orders. *)
Inductive sameUpToOrder (facts : gmap string string)
  : string -> string -> Prop :=
| same_text a : sameUpToOrder facts a a
| same_lines pre post l1 l2 :
    l1 ≡ₚ map_to_list facts ->
    l2 ≡ₚ map_to_list facts ->
    sameUpToOrder facts
      (pre +:+ Join (map factLine l1) nl +:+ post)
      (pre +:+ Join (map factLine l2) nl +:+ post)
| same_names pre post l1 l2 :
    l1 ≡ₚ map_to_list facts ->
    l2 ≡ₚ map_to_list facts ->
    sameUpToOrder facts
      (pre +:+ Join (map fst l1) ", " +:+ post)
      (pre +:+ Join (map fst l2) ", " +:+ post).

Definition sameReply (facts : gmap string string) (x y : MessageConfig)
  : Prop :=
  ToChat x = ToChat y /\ Markup x = Markup y
  /\ sameUpToOrder facts (Body x) (Body y).

End Dialogue.

(** ** Sample data *)

Module Examples.
Import GoString Regexp Bot Storage Dialogue.

(** Two iteration orders: the entries as [map_to_list] lists them, and the
    same list backwards. *)
Definition forwards : MapOrder := map_to_list.
Definition backwards : MapOrder := fun m => rev (map_to_list m).

(** A message that is plain text, and one that is the command [name]. *)
Definition textMessage (text : string) : Message :=
  mkMessage text false EmptyString 1 1 1700000000.

Definition commandMessage (name : string) : Message :=
  mkMessage ("/" +:+ name) true name 1 1 1700000000.

Definition inbound (m : Message) : Update := mkUpdate (Some m).

Definition factsAge : gmap string string := {["age" := "30"]}.

Definition factsAgeColor : gmap string string :=
  <["age" := "30"]> {["color" := "blue"]}.

(** A user who has chosen a category and not yet answered. *)
Definition askedAge : UserSession :=
  mkUserSession StateTypingReply "age" ∅ 0.


(** A user who was asked to name a category. *)
Definition namingCategory : UserSession :=
  mkUserSession StateTypingChoice EmptyString factsAge 0.

(** A user at the menu who has told two facts. *)
Definition toldTwoFacts : UserSession :=
  mkUserSession StateChoosing EmptyString factsAgeColor 0.

(** A new user who picks Age and answers 17. *)
Definition afterAge17 : UserSession :=
  fst (ProcessUpdate forwards (inbound (textMessage "17"))
         (fst (ProcessUpdate forwards (inbound (textMessage "Age"))
                 newSession []))
         []).

(** The store of the persistence test: user 12345 has told their age and
    is in [StateTypingReply]. *)
Definition testStorage : ThreadSafeStorage :=
  mkStorage
    {[12345 := mkUserSession StateTypingReply EmptyString factsAge 0]}
    "test_storage.json".

Definition emptyDisk : FileSystem := mkFileSystem ∅ ∅.

(** A writer and a reader of JSON text to run [Save] and [Load] with.
    The writer puts nothing between the tokens, and the reader reads what
    the writer writes. *)
Fixpoint escape (s : string) : string :=
  match s with
  | EmptyString => EmptyString
  | String c rest =>
      if Ascii.eqb c (ascii_of_nat 34) || Ascii.eqb c (ascii_of_nat 92)
      then String (ascii_of_nat 92) (String c (escape rest))
      else String c (escape rest)
  end.

Definition quote (s : string) : string := dquote +:+ escape s +:+ dquote.

Fixpoint writeValue (v : Json.Value) : string :=
  match v with
  | Json.Null => "null"
  | Json.Bool b => if b then "true" else "false"
  | Json.Number n => Json.FormatInt n
  | Json.Float lit => lit
  | Json.Str s => quote s
  | Json.Array items => "[" +:+ Join (map writeValue items) "," +:+ "]"
  | Json.Object members =>
      "{"
        +:+ Join
              (map (fun kv => quote (fst kv) +:+ ":" +:+ writeValue (snd kv))
                 members)
              ","
        +:+ "}"
  end.

Definition writeJson (v : Json.Value) : list Byte.byte :=
  list_byte_of_string (writeValue v).

(** The text of a string, from after its opening quote. *)
Fixpoint readString (s : string) : option (string * string) :=
  match s with
  | EmptyString => None
  | String c rest =>
      if Ascii.eqb c (ascii_of_nat 34) then Some (EmptyString, rest)
      else if Ascii.eqb c (ascii_of_nat 92) then
        match rest with
        | EmptyString => None
        | String e rest' =>
            '(t, r) ← readString rest'; Some (String e t, r)
        end
      else '(t, r) ← readString rest; Some (String c t, r)
  end.

(** The longest prefix made of digits and minus signs. *)
Fixpoint readDigits (s : string) : string * string :=
  match s with
  | EmptyString => (EmptyString, EmptyString)
  | String c rest =>
      if Ascii.eqb c "-" || (Ascii.leb "0" c && Ascii.leb c "9") then
        (String c (fst (readDigits rest)), snd (readDigits rest))
      else (EmptyString, s)
  end.

Fixpoint readValue (fuel : nat) (s : string)
  : option (Json.Value * string) :=
  match fuel with
  | O => None
  | S fuel' =>
      match s with
      | EmptyString => None
      | String c rest =>
          if Ascii.eqb c (ascii_of_nat 34) then
            '(t, r) ← readString rest; Some (Json.Str t, r)
          else if Ascii.eqb c "{" then
            match rest with
            | String "}" r => Some (Json.Object [], r)
            | _ => '(ms, r) ← readMembers fuel' rest; Some (Json.Object ms, r)
            end
          else if Ascii.eqb c "[" then
            match rest with
            | String "]" r => Some (Json.Array [], r)
            | _ => '(vs, r) ← readItems fuel' rest; Some (Json.Array vs, r)
            end
          else
            match startsWith "null" s, startsWith "true" s,
                  startsWith "false" s with
            | Some r, _, _ => Some (Json.Null, r)
            | _, Some r, _ => Some (Json.Bool true, r)
            | _, _, Some r => Some (Json.Bool false, r)
            | None, None, None =>
                n ← NilZero.int_of_string (fst (readDigits s));
                Some (Json.Number (Z.of_int n), snd (readDigits s))
            end
      end
  end
with readMembers (fuel : nat) (s : string)
  : option (list (string * Json.Value) * string) :=
  match fuel with
  | O => None
  | S fuel' =>
      match s with
      | EmptyString => None
      | String q rest =>
          if Ascii.eqb q (ascii_of_nat 34) then
            '(k, r1) ← readString rest;
            match r1 with
            | String ":" r2 =>
                '(v, r3) ← readValue fuel' r2;
                match r3 with
                | String "," r4 =>
                    '(ms, r5) ← readMembers fuel' r4; Some ((k, v) :: ms, r5)
                | String "}" r4 => Some ([(k, v)], r4)
                | _ => None
                end
            | _ => None
            end
          else None
      end
  end
with readItems (fuel : nat) (s : string)
  : option (list Json.Value * string) :=
  match fuel with
  | O => None
  | S fuel' =>
      '(v, r1) ← readValue fuel' s;
      match r1 with
      | String "," r2 => '(vs, r3) ← readItems fuel' r2; Some (v :: vs, r3)
      | String "]" r2 => Some ([v], r2)
      | _ => None
      end
  end.

Definition readJson (data : list Byte.byte) : option Json.Value :=
  match readValue (S (length data)) (string_of_list_byte data) with
  | Some (v, EmptyString) => Some v
  | _ => None
  end.

(** On the documents [Json] does not decode the example reports an error
    and leaves the map as it is. *)
Definition giveUp (v : Json.Value) (sessions : gmap Z UserSession)
  : gmap Z UserSession * bool :=
  (sessions, true).

End Examples.

(** ** More sample data *)

Module Traffic.
Import GoString Bot Storage Dispatcher Examples.

(** A message of the user [userID]. *)
Definition messageOf (userID : Z) (text : string) : Message :=
  mkMessage text false EmptyString userID userID 1700000000.

(** A command the program does not know. *)
Definition helpCommand : Message :=
  mkMessage "/help" true "help" 1 1 1700000000.

(** Two users talking at the same time: 7 picks Age and answers, 8 sends
    Done in between; one update carries no message. *)
Definition twoUsers : list (MapOrder * Update) :=
  [ (forwards, inbound (messageOf 7 "Age"));
    (backwards, inbound (messageOf 8 "Done"));
    (forwards, mkUpdate None);
    (backwards, inbound (messageOf 7 "17")) ].

Definition emptyStorage : ThreadSafeStorage :=
  mkStorage ∅ "conversationbot.json".

Definition startOfDay : World := (emptyStorage, [], emptyDisk).


(** A session loaded with a state that is none of the three. *)
Definition strangeState : UserSession :=
  mkUserSession 7 "age" factsAge 0.

End Traffic.

(** * Proofs *)

Import GoString Regexp Bot Storage Dialogue Examples.
Import Dispatcher Traffic.

(** ** Strings *)



Lemma append_String (a : ascii) (s t : string) :
  String a s +:+ t = String a (s +:+ t).
Proof. reflexivity. Qed.

Lemma append_empty_l (t : string) : EmptyString +:+ t = t.
Proof. reflexivity. Qed.

Lemma append_empty_r (s : string) : s +:+ EmptyString = s.
Proof.
  induction s as [|c s IH]; [reflexivity|].
  now rewrite append_String, IH.
Qed.

Lemma append_assoc (s t u : string) : (s +:+ t) +:+ u = s +:+ (t +:+ u).
Proof.
  induction s as [|c s IH]; [reflexivity|].
  now rewrite !append_String, IH.
Qed.

(** ** Matching *)

Lemma startsWith_exact (p s : string) :
  startsWith p s = Some EmptyString <-> s = p.
Proof.
  revert s. induction p as [|c p IH]; intros [|a s]; simpl.
  - tauto.
  - split; intros H; discriminate H.
  - split; intros H; discriminate H.
  - destruct (Ascii.eqb_spec a c) as [->|Hne].
    + rewrite IH. split; [intros ->; reflexivity | intros [= ->]; reflexivity].
    + split; [discriminate | intros [= ? ?]; contradiction].
Qed.

Lemma run_literal_exact (p s : string) :
  run (literal false p) s =
  match startsWith p s with Some rest => [rest] | None => [] end.
Proof.
  revert s. induction p as [|c p IH]; intros s; simpl; [reflexivity|].
  destruct s as [|a s]; simpl; [reflexivity|].
  destruct (Ascii.eqb a c); simpl; [|reflexivity].
  rewrite IH. apply app_nil_r.
Qed.

Lemma MatchString_literal_exact (p s : string) :
  MatchString (literal false p) s = true <-> s = p.
Proof.
  unfold MatchString. rewrite run_literal_exact, <- startsWith_exact.
  destruct (startsWith p s) as [[|a r]|]; simpl; split; intros H;
    try reflexivity; try discriminate H.
Qed.

Lemma MatchString_literal_fold (p s : string) :
  MatchString (literal true p) s = true <-> ToLower s = ToLower p.
Proof.
  unfold MatchString.
  revert s. induction p as [|c p IH]; intros [|a s]; simpl.
  - tauto.
  - split; intros H; discriminate H.
  - split; intros H; discriminate H.
  - destruct (Ascii.eqb_spec (lowerByte a) (lowerByte c)) as [Heq|Hne]; simpl.
    + rewrite app_nil_r, IH, Heq.
      split; [intros ->; reflexivity | intros [= ->]; reflexivity].
    + split; [discriminate | intros [= ? ?]; contradiction].
Qed.

Lemma isDone_spec (text : string) : isDone text = true <-> ToLower text = "done".
Proof. apply (MatchString_literal_fold "Done"). Qed.

Lemma MatchString_Alternate (r1 r2 : Regexp) (s : string) :
  MatchString (Alternate r1 r2) s = MatchString r1 s || MatchString r2 s.
Proof. unfold MatchString. simpl. apply existsb_app. Qed.

Lemma isRegular_spec (text : string) :
  isRegular text = true <-> In text regularCategories.
Proof.
  unfold isRegular, reRegular.
  rewrite !MatchString_Alternate, !orb_true_iff, !MatchString_literal_exact.
  simpl. intuition congruence.
Qed.

Lemma isCustom_prefix (text : string) :
  isCustom text = true -> exists rest, startsWith "Something else" text = Some rest.
Proof.
  unfold isCustom, reCustom, MatchString.
  change (run (Concat ?a ?b) text) with (flat_map (run b) (run a text)).
  rewrite run_literal_exact.
  destruct (startsWith "Something else" text) as [rest|]; [eauto|discriminate].
Qed.

Lemma isDone_not_regular (text : string) :
  isDone text = true -> isRegular text = false.
Proof.
  intros Hd. apply isDone_spec in Hd.
  destruct (isRegular text) eqn:Hr; [|reflexivity].
  apply isRegular_spec in Hr. simpl in Hr.
  destruct Hr as [<-|[<-|[<-|[]]]]; discriminate Hd.
Qed.

Lemma isDone_not_custom (text : string) :
  isDone text = true -> isCustom text = false.
Proof.
  intros Hd. apply isDone_spec in Hd.
  destruct (isCustom text) eqn:Hc; [|reflexivity].
  apply isCustom_prefix in Hc. destruct Hc as [rest Hrest].
  destruct text as [|a text]; [discriminate Hrest|].
  simpl in Hrest. destruct (Ascii.eqb_spec a "S") as [->|]; [|discriminate Hrest].
  discriminate Hd.
Qed.

(** ** Ranging over the facts *)

Lemma fold_left_snoc {A B : Type} (f : A -> B) (l : list A) (acc : list B) :
  fold_left (fun acc x => (acc ++ [f x])%list) l acc = (acc ++ map f l)%list.
Proof.
  revert acc. induction l as [|x l IH]; intros acc; simpl.
  - now rewrite app_nil_r.
  - rewrite IH, <- app_assoc. reflexivity.
Qed.

Lemma factsToString_lines (order : MapOrder) (userData : gmap string string) :
  factsToString order userData = Join (map factLine (order userData)) nl.
Proof. unfold factsToString. now rewrite fold_left_snoc. Qed.

Lemma visits_all_forwards : visits_all forwards.
Proof. intros m. reflexivity. Qed.

Lemma visits_all_backwards : visits_all backwards.
Proof. intros m. unfold backwards. symmetry. apply Permutation_rev. Qed.

(** ** The state machine, branch by branch *)

Section Routing.
Variables (order : MapOrder) (update : Update) (m : Message).
Variables (session : UserSession) (bot : BotAPI).
Hypothesis Hm : Msg update = Some m.

Lemma route_start :
  IsCommand m = true -> Command m = "start" ->
  ProcessUpdate order update session bot = handleStart order m session bot.
Proof. intros Hc Hn. unfold ProcessUpdate. now rewrite Hm, Hc, Hn. Qed.

Lemma route_show_data :
  IsCommand m = true -> Command m = "show_data" ->
  ProcessUpdate order update session bot = handleShowData order m session bot.
Proof. intros Hc Hn. unfold ProcessUpdate. now rewrite Hm, Hc, Hn. Qed.

Lemma route_text :
  IsCommand m = false ->
  ProcessUpdate order update session bot =
  if State session =? StateChoosing then
    if isRegular (Text m) then handleRegularChoice m session bot
    else if isCustom (Text m) then handleCustomChoice m session bot
    else if isDone (Text m) then handleDone order m session bot
    else (session, bot)
  else if State session =? StateTypingChoice then
    if negb (isDone (Text m)) then
      (setState StateTypingReply (setCurrentKey (ToLower (Text m)) session),
       Send bot
         (NewMessage (ChatID m)
            ("Your " +:+ ToLower (Text m)
               +:+ "? Yes, I would love to hear about that!")))
    else handleRegularChoice m session bot
  else if State session =? StateTypingReply then
    if negb (isDone (Text m)) then
      handleReceivedInformation order m session bot
    else handleDone order m session bot
  else (session, bot).
Proof. intros Hc. unfold ProcessUpdate. now rewrite Hm, Hc. Qed.

End Routing.

Lemma done_in_choosing_or_typing_reply (order : MapOrder) (update : Update)
  (m : Message) (session : UserSession) (bot : BotAPI) :
  Msg update = Some m -> IsCommand m = false -> isDone (Text m) = true ->
  State session = StateChoosing \/ State session = StateTypingReply ->
  ProcessUpdate order update session bot =
  (mkUserSession StateChoosing EmptyString (UserData session)
     (LastUpdated session),
   (bot ++ [mkMessageConfig (ChatID m)
             ("I learned these facts about you:" +:+ nl
                +:+ Join (map factLine (order (UserData session))) nl +:+ nl
                +:+ "Until next time!")
             (RemoveKeyboard true)])%list).
Proof.
  intros Hm Hc Hd Hs. rewrite (route_text _ _ m) by assumption.
  rewrite Hd, (isDone_not_regular _ Hd), (isDone_not_custom _ Hd).
  destruct Hs as [-> | ->]; simpl;
    unfold handleDone; now rewrite factsToString_lines.
Qed.

Lemma done_in_typing_choice (order : MapOrder) (update : Update)
  (m : Message) (session : UserSession) (bot : BotAPI) :
  Msg update = Some m -> IsCommand m = false -> isDone (Text m) = true ->
  State session = StateTypingChoice ->
  let r := ProcessUpdate order update session bot in
  State (fst r) = StateTypingReply /\ CurrentKey (fst r) = "done".
Proof.
  intros Hm Hc Hd Hs. rewrite (route_text _ _ m) by assumption.
  rewrite Hd, Hs. simpl. split; [reflexivity|]. now apply isDone_spec.
Qed.

(** ** The scenarios of the dialogue, run *)

Example first_contact_greets_without_known_facts :
  ProcessUpdate forwards (inbound (commandMessage "start")) newSession []
  = (newSession,
     [mkMessageConfig 1
        "Hi! My name is Doctor Botter. I will hold a more complex conversation with you. Why don't you tell me something about yourself?"
        mainKeyboard]).
Proof. reflexivity. Qed.

Example age_is_asked_then_recorded :
  let asked :=
    fst (ProcessUpdate forwards (inbound (textMessage "Age")) newSession [])
  in
  State asked = StateTypingReply /\ CurrentKey asked = "age"
  /\ afterAge17 = mkUserSession StateChoosing EmptyString {["age" := "17"]} 0.
Proof. vm_compute. repeat split. Qed.

Example custom_category_is_named_then_recorded :
  let step text session :=
    fst (ProcessUpdate forwards (inbound (textMessage text)) session []) in
  let naming := step "Something else..." newSession in
  let asked := step "Favourite food" naming in
  let told := step "Pizza" asked in
  State naming = StateTypingChoice
  /\ State asked = StateTypingReply /\ CurrentKey asked = "favourite food"
  /\ told
     = mkUserSession StateChoosing EmptyString
         {["favourite food" := "pizza"]} 0.
Proof. vm_compute. repeat split. Qed.

Example done_while_answering_records_nothing :
  ProcessUpdate forwards (inbound (textMessage "Done")) askedAge []
  = (mkUserSession StateChoosing EmptyString ∅ 0,
     [mkMessageConfig 1
        ("I learned these facts about you:" +:+ nl +:+ nl
           +:+ "Until next time!")
        (RemoveKeyboard true)]).
Proof. reflexivity. Qed.

(** ** Done *)

(** C1, at the input where the program departs from it: a user who was
    asked to name a category sends Done.  The session does not go back to
    the menu: the word itself is taken as the category, the state becomes
    [StateTypingReply], and the reply asks about it instead of summing up
    the facts. *)
Theorem done_while_naming_category_is_taken_as_category :
  let r :=
    ProcessUpdate forwards (inbound (textMessage "Done")) namingCategory [] in
  isDone "Done" = true
  /\ State (fst r) = StateTypingReply
  /\ CurrentKey (fst r) = "done"
  /\ snd r =
     [NewMessage 1 "Your done? Yes, I would love to hear about that!"].
Proof. vm_compute. repeat split. Qed.

(** ** The start command *)

(** C2 as stated fails: a user who has chosen Age and then sends the start
    command still has the pending category afterwards. *)
Lemma start_keeps_pending_category :
  CurrentKey
    (fst (ProcessUpdate forwards (inbound (commandMessage "start"))
            askedAge []))
  <> EmptyString.
Proof. vm_compute. discriminate. Qed.

(** C2, amended: whatever the session, the start command sets the state to
    [StateChoosing] and leaves the pending category and the facts as they
    were. *)
Theorem start_resets_state_only (order : MapOrder) (update : Update)
  (m : Message) (session : UserSession) (bot : BotAPI) :
  Msg update = Some m -> IsCommand m = true -> Command m = "start" ->
  let session' := fst (ProcessUpdate order update session bot) in
  State session' = StateChoosing
  /\ CurrentKey session' = CurrentKey session
  /\ UserData session' = UserData session.
Proof.
  intros Hm Hc Hn. rewrite (route_start _ _ m) by assumption.
  repeat split.
Qed.

Lemma start_resets_state_only_witness :
  let session' :=
    fst (ProcessUpdate forwards (inbound (commandMessage "start"))
           askedAge []) in
  State session' = StateChoosing
  /\ CurrentKey session' = CurrentKey askedAge
  /\ UserData session' = UserData askedAge.
Proof.
  apply (start_resets_state_only forwards (inbound (commandMessage "start"))
           (commandMessage "start") askedAge []); reflexivity.
Defined.

(** ** Receiving a value *)




(** ** Letter case in the filters *)




(** ** The snapshot document *)

Lemma string_of_uint_head (d : Decimal.uint) :
  exists a rest,
    NilZero.string_of_uint d = String a rest
    /\ Ascii.eqb a "-" = false /\ Ascii.eqb a "+" = false.
Proof. destruct d; simpl; eauto. Qed.

Lemma digitsValue_to_uint (p : positive) :
  Json.digitsValue (NilZero.string_of_uint (Pos.to_uint p)) = Some (Z.pos p).
Proof.
  unfold Json.digitsValue.
  rewrite NilZero.usu by apply DecimalPos.Unsigned.to_uint_nonnil.
  simpl. unfold Z.of_uint. now rewrite DecimalPos.Unsigned.of_to.
Qed.

Lemma ParseInt_FormatInt (n : Z) :
  Json.fitsInt64 n = true -> Json.ParseInt (Json.FormatInt n) = Some n.
Proof.
  intros Hfit. unfold Json.ParseInt, Json.FormatInt.
  destruct n as [|p|p]; simpl Z.to_int.
  - reflexivity.
  - simpl NilZero.string_of_int.
    destruct (string_of_uint_head (Pos.to_uint p)) as (a & rest & Hs & Hm & Hp).
    pose proof (digitsValue_to_uint p) as Hd. rewrite Hs in Hd |- *.
    rewrite Hm, Hp, Hd. cbn -[Json.fitsInt64]. now rewrite Hfit.
  - simpl NilZero.string_of_int. cbv beta iota.
    rewrite Ascii.eqb_refl, digitsValue_to_uint.
    cbn -[Json.fitsInt64]. change (- Z.pos p) with (Z.neg p).
    now rewrite Hfit.
Qed.

Lemma decode_sorted {K A : Type} `{Countable K}
  (enc : K * A -> string * Json.Value)
  (dec : string * Json.Value -> option (K * A)) (m : gmap K A) :
  (forall e, e ∈ map_to_list m -> dec (enc e) = Some e) ->
  (fun l => list_to_map (reverse l))
    <$> mapM dec (Json.sortByKey (enc <$> map_to_list m))
  = Some m.
Proof.
  intros Hdec.
  destruct (Permutation_map_inv enc (map_to_list m)
              (merge_sort_Permutation Json.keyLe (enc <$> map_to_list m)))
    as (l & Hl & Hperm).
  assert (Hs : Json.sortByKey (enc <$> map_to_list m) = enc <$> l)
    by exact Hl.
  rewrite Hs, mapM_fmap_Forall_Some.
  - simpl. f_equal.
    transitivity (list_to_map (map_to_list m) : gmap K A);
      [|apply list_to_map_to_list].
    apply list_to_map_proper.
    + rewrite fmap_reverse, reverse_Permutation, <- Hperm.
      apply NoDup_fst_map_to_list.
    + now rewrite reverse_Permutation, <- Hperm.
  - apply Forall_forall. intros e He. apply Hdec. now rewrite Hperm.
Qed.

Lemma decodeFacts_encodeFacts (userData : gmap string string) :
  Json.decodeFacts (Json.encodeFacts userData) = Some userData.
Proof.
  unfold Json.decodeFacts, Json.encodeFacts.
  apply (decode_sorted Json.encodeFact Json.decodeFact).
  intros [k v] _. reflexivity.
Qed.

Lemma decodeField_state (acc : UserSession * bool) (n : Z) :
  Json.fitsInt64 n = true ->
  Json.decodeField acc ("state", Json.Number n)
  = Some (setState n (fst acc), snd acc).
Proof. intros Hn. unfold Json.decodeField. cbn -[Json.fitsInt64]. now rewrite Hn. Qed.

Lemma decodeField_current_key (acc : UserSession * bool) (key : string) :
  Json.decodeField acc ("current_key", Json.Str key)
  = Some (setCurrentKey key (fst acc), snd acc).
Proof. reflexivity. Qed.

Lemma decodeField_user_data (acc : UserSession * bool)
  (userData : gmap string string) :
  Json.decodeField acc ("user_data", Json.encodeFacts userData)
  = Some (setUserData (userData ∪ UserData (fst acc)) (fst acc), true).
Proof.
  unfold Json.decodeField.
  cbn -[Json.decodeFacts Json.encodeFacts].
  now rewrite decodeFacts_encodeFacts.
Qed.

Lemma decodeField_last_updated (acc : UserSession * bool) (n : Z) :
  Json.fitsInt64 n = true ->
  Json.decodeField acc ("last_updated", Json.Number n)
  = Some (setLastUpdated n (fst acc), snd acc).
Proof. intros Hn. unfold Json.decodeField. cbn -[Json.fitsInt64]. now rewrite Hn. Qed.

Lemma decodeSession_encodeSession (session : UserSession) :
  Json.fitsInt64 (State session) = true ->
  Json.fitsInt64 (LastUpdated session) = true ->
  Json.decodeSession (Json.encodeSession session) = Some session.
Proof.
  intros Hs Hu. destruct session as [st key data upd].
  cbn [State LastUpdated] in Hs, Hu.
  unfold Json.decodeSession, Json.encodeSession.
  cbn [State CurrentKey UserData LastUpdated].
  destruct key as [|c key]; cbn [isEmpty app Json.decodeFields];
    rewrite ?decodeField_state by assumption; cbn [mbind option_bind];
    rewrite ?decodeField_current_key; cbn [mbind option_bind];
    rewrite decodeField_user_data; cbn [mbind option_bind];
    rewrite decodeField_last_updated by assumption; cbn [mbind option_bind];
    cbn; now rewrite (right_id_L ∅ (∪)).
Qed.

Lemma decodeSessions_encodeSessions (sessions : gmap Z UserSession) :
  (forall userID session,
     sessions !! userID = Some session ->
     Json.fitsInt64 userID = true
     /\ Json.fitsInt64 (State session) = true
     /\ Json.fitsInt64 (LastUpdated session) = true) ->
  Json.decodeSessions (Json.encodeSessions sessions) = Some sessions.
Proof.
  intros Hfit. unfold Json.decodeSessions, Json.encodeSessions.
  apply (decode_sorted Json.encodeEntry Json.decodeEntry).
  intros [userID session] Hin. apply elem_of_map_to_list in Hin.
  destruct (Hfit _ _ Hin) as (Hid & Hs & Hu).
  unfold Json.decodeEntry, Json.encodeEntry. cbn [fst snd].
  rewrite ParseInt_FormatInt by assumption. cbn [mbind option_bind].
  now rewrite decodeSession_encodeSession by assumption.
Qed.

(** ** The snapshot *)

(** C5: when the store is saved to its path and a new store is made from
    that path, every session of the first store is in the second, equal in
    state, pending category, facts and time stamp (whatever the state, and
    whether or not there are facts).  The identifiers, states and time
    stamps are 64-bit integers, as they are in the program.  What is asked
    of the library and the disk: the text written for the document of this
    store is not empty and reads back as that document, and the path can
    be written. *)
Theorem save_then_load_restores
  (render : Json.Value -> list Byte.byte)
  (parse : list Byte.byte -> option Json.Value)
  (decodeOther :
     Json.Value -> gmap Z UserSession -> gmap Z UserSession * bool)
  (fs : FileSystem) (s : ThreadSafeStorage)
  (userID : Z) (session : UserSession) :
  Sessions s !! userID = Some session ->
  (forall id u,
     Sessions s !! id = Some u ->
     Json.fitsInt64 id = true
     /\ Json.fitsInt64 (State u) = true
     /\ Json.fitsInt64 (LastUpdated u) = true) ->
  parse (render (Json.encodeSessions (Sessions s)))
  = Some (Json.encodeSessions (Sessions s)) ->
  render (Json.encodeSessions (Sessions s)) <> [] ->
  FilePath s ∉ denied fs ->
  GetSession
    (NewStorage parse decodeOther (FilePath s) (Save render s fs)) userID
  = Some session.
Proof.
  intros Hsession Hfit Hread Hlen Hpath.
  unfold GetSession, NewStorage, Load, Save, MarshalIndent, ReadFile,
    WriteFile.
  destruct (decide (FilePath s ∈ denied fs)) as [Hin|_]; [contradiction|].
  cbn [fst FilePath files denied].
  destruct (decide (FilePath s ∈ denied fs)) as [Hin|_]; [contradiction|].
  rewrite lookup_insert_eq.
  destruct (render (Json.encodeSessions (Sessions s))) as [|b data] eqn:Hdoc;
    [contradiction|].
  cbn [length Nat.eqb Sessions]. unfold Unmarshal.
  rewrite Hread, decodeSessions_encodeSessions by assumption.
  cbn [fst setSessions Sessions].
  now rewrite (right_id_L ∅ (∪)).
Qed.

Lemma save_then_load_restores_witness :
  GetSession
    (NewStorage readJson giveUp (FilePath testStorage)
       (Save writeJson testStorage emptyDisk))
    12345
  = Some (mkUserSession StateTypingReply EmptyString factsAge 0).
Proof.
  apply (save_then_load_restores writeJson readJson giveUp emptyDisk
           testStorage).
  - reflexivity.
  - intros id u Hu. cbn [testStorage Sessions] in Hu.
    apply lookup_singleton_Some in Hu as [<- <-]. repeat split.
  - vm_compute. reflexivity.
  - vm_compute. discriminate.
  - vm_compute. discriminate.
Defined.

(** ** The show command *)

(** C6 as stated fails: the reply is not the fact lines alone.  For the
    facts age 30 and colour blue it differs from the two lines joined in
    either order, whichever way the map is ranged over. *)
Lemma show_data_reply_is_not_the_lines_alone :
  let lines1 := "age - 30" +:+ nl +:+ "color - blue" in
  let lines2 := "color - blue" +:+ nl +:+ "age - 30" in
  let show := inbound (commandMessage "show_data") in
  map Body (snd (ProcessUpdate forwards show toldTwoFacts [])) <> [lines1]
  /\ map Body (snd (ProcessUpdate forwards show toldTwoFacts [])) <> [lines2]
  /\ map Body (snd (ProcessUpdate backwards show toldTwoFacts [])) <> [lines1]
  /\ map Body (snd (ProcessUpdate backwards show toldTwoFacts [])) <> [lines2].
Proof. vm_compute. repeat split; discriminate. Qed.

(** C6, amended: whatever the session, the show command leaves it as it is
    and sends one message: the heading, a line feed, and the facts, one
    line of category, dash and value for each, joined by line feeds in the
    order the map is ranged over. *)
Theorem show_data_lists_facts_under_heading (order : MapOrder)
  (update : Update) (m : Message) (session : UserSession) (bot : BotAPI) :
  visits_all order ->
  Msg update = Some m -> IsCommand m = true -> Command m = "show_data" ->
  exists facts,
    facts ≡ₚ map_to_list (UserData session)
    /\ ProcessUpdate order update session bot =
       (session,
        (bot ++ [NewMessage (ChatID m)
                  ("This is what you already told me:" +:+ nl
                     +:+ Join (map factLine facts) nl)])%list).
Proof.
  intros Hall Hm Hc Hn. exists (order (UserData session)).
  split; [apply Hall|].
  rewrite (route_show_data _ _ m) by assumption.
  unfold handleShowData. now rewrite factsToString_lines.
Qed.

Lemma show_data_lists_facts_under_heading_witness :
  exists facts,
    facts ≡ₚ map_to_list (UserData toldTwoFacts)
    /\ ProcessUpdate backwards (inbound (commandMessage "show_data"))
         toldTwoFacts [] =
       (toldTwoFacts,
        ([] ++ [NewMessage (ChatID (commandMessage "show_data"))
                  ("This is what you already told me:" +:+ nl
                     +:+ Join (map factLine facts) nl)])%list).
Proof.
  apply (show_data_lists_facts_under_heading backwards
           (inbound (commandMessage "show_data"))
           (commandMessage "show_data") toldTwoFacts []).
  - intros m. symmetry. apply Permutation_rev.
  - reflexivity.
  - reflexivity.
  - reflexivity.
Defined.

(** ** Creating sessions *)

(** C7: [GetOrCreateSession] returns the session the store has for the
    user and leaves the store as it is; when there is none it adds one
    record for that user, in [StateChoosing] with no facts, and returns
    it. *)
Theorem GetOrCreateSession_returns_or_creates (s : ThreadSafeStorage)
  (userID : Z) :
  match Sessions s !! userID with
  | Some session => GetOrCreateSession s userID = (s, session)
  | None =>
      exists fresh,
        GetOrCreateSession s userID =
          (mkStorage (<[userID := fresh]> (Sessions s)) (FilePath s), fresh)
        /\ State fresh = StateChoosing
        /\ UserData fresh = ∅
        /\ size (<[userID := fresh]> (Sessions s)) = S (size (Sessions s))
  end.
Proof.
  unfold GetOrCreateSession.
  destruct (Sessions s !! userID) as [session|] eqn:Hlook.
  - f_equal. unfold lookup_total, map_lookup_total. now rewrite Hlook.
  - exists newSession. repeat split.
    + f_equal. unfold lookup_total, map_lookup_total. simpl.
      now rewrite lookup_insert_eq.
    + now apply map_size_insert_None.
Qed.

(** ** The time stamp *)

(** C9 as stated fails: a new user picks Age at the time 1700000000; the
    state changes and [LastUpdated] is still 0. *)
Lemma state_changes_and_time_stamp_stays :
  let m := textMessage "Age" in
  let session' := fst (ProcessUpdate forwards (inbound m) newSession []) in
  State session' <> State newSession
  /\ LastUpdated session' = 0
  /\ LastUpdated session' <> Date m.
Proof. vm_compute. repeat split; discriminate. Qed.

(** C9, amended: no event writes [LastUpdated]; whatever the update, the
    field is after [ProcessUpdate] what it was before (0 for a session
    that [GetOrCreateSession] made). *)
Theorem LastUpdated_is_never_written (order : MapOrder) (update : Update)
  (session : UserSession) (bot : BotAPI) :
  LastUpdated (fst (ProcessUpdate order update session bot))
  = LastUpdated session.
Proof.
  unfold ProcessUpdate.
  destruct (Msg update) as [m|]; [|reflexivity].
  repeat match goal with
         | |- context [if ?c then _ else _] => destruct c
         end; reflexivity.
Qed.

(** ** Determinism *)

Lemma sameReply_refl (facts : gmap string string) (x : MessageConfig) :
  sameReply facts x x.
Proof. repeat split. apply same_text. Qed.

Lemma sameReply_unsent (facts : gmap string string) (bot : BotAPI) :
  Forall2 (sameReply facts) bot bot.
Proof.
  induction bot as [|z bot IH]; constructor;
    [apply sameReply_refl | exact IH].
Qed.

Lemma sameReply_sent (facts : gmap string string) (bot : BotAPI)
  (x y : MessageConfig) :
  sameReply facts x y -> Forall2 (sameReply facts) (Send bot x) (Send bot y).
Proof.
  intros Hxy. unfold Send. apply Forall2_app.
  - apply sameReply_unsent.
  - constructor; [exact Hxy | constructor].
Qed.

Section TwoRuns.
Variables order1 order2 : MapOrder.
Hypothesis Hall1 : visits_all order1.
Hypothesis Hall2 : visits_all order2.

Lemma factsToString_sameUpToOrder (pre post : string)
  (userData : gmap string string) :
  sameUpToOrder userData
    (pre +:+ factsToString order1 userData +:+ post)
    (pre +:+ factsToString order2 userData +:+ post).
Proof.
  rewrite !factsToString_lines. apply same_lines; [apply Hall1 | apply Hall2].
Qed.

Lemma handleStart_two_runs (m : Message) (session : UserSession)
  (bot : BotAPI) :
  fst (handleStart order1 m session bot) = fst (handleStart order2 m session bot)
  /\ Forall2 (sameReply (UserData (fst (handleStart order1 m session bot))))
       (snd (handleStart order1 m session bot))
       (snd (handleStart order2 m session bot)).
Proof.
  split; [reflexivity|]. unfold handleStart. cbv zeta. cbn [fst snd].
  apply sameReply_sent. repeat split. cbn [Body setReplyMarkup NewMessage].
  destruct (0 <? size (UserData session))%nat; [|apply same_text].
  rewrite !fold_left_snoc. cbn [app UserData setState].
  apply (same_names (UserData session)
           ("Hi! My name is Doctor Botter." +:+ " You already told me your ")
           ". Why don't you tell me something more about yourself? Or change anything I already know.");
    [apply Hall1 | apply Hall2].
Qed.

Lemma handleShowData_two_runs (m : Message) (session : UserSession)
  (bot : BotAPI) :
  fst (handleShowData order1 m session bot)
  = fst (handleShowData order2 m session bot)
  /\ Forall2
       (sameReply (UserData (fst (handleShowData order1 m session bot))))
       (snd (handleShowData order1 m session bot))
       (snd (handleShowData order2 m session bot)).
Proof.
  split; [reflexivity|]. unfold handleShowData. cbv zeta. cbn [fst snd].
  apply sameReply_sent. repeat split. cbn [Body NewMessage].
  rewrite <- (append_empty_r (factsToString order1 _)).
  rewrite <- (append_empty_r (factsToString order2 _)).
  apply (factsToString_sameUpToOrder
           ("This is what you already told me:" +:+ nl) EmptyString).
Qed.

Lemma handleDone_two_runs (m : Message) (session : UserSession)
  (bot : BotAPI) :
  fst (handleDone order1 m session bot) = fst (handleDone order2 m session bot)
  /\ Forall2 (sameReply (UserData (fst (handleDone order1 m session bot))))
       (snd (handleDone order1 m session bot))
       (snd (handleDone order2 m session bot)).
Proof.
  split; [reflexivity|]. unfold handleDone. cbv zeta. cbn [fst snd].
  apply sameReply_sent. repeat split.
  apply (factsToString_sameUpToOrder
           ("I learned these facts about you:" +:+ nl)
           (nl +:+ "Until next time!")).
Qed.

Lemma handleReceivedInformation_two_runs (m : Message)
  (session : UserSession) (bot : BotAPI) :
  fst (handleReceivedInformation order1 m session bot)
  = fst (handleReceivedInformation order2 m session bot)
  /\ Forall2
       (sameReply
          (UserData (fst (handleReceivedInformation order1 m session bot))))
       (snd (handleReceivedInformation order1 m session bot))
       (snd (handleReceivedInformation order2 m session bot)).
Proof.
  split; [reflexivity|]. unfold handleReceivedInformation. cbv zeta.
  cbn [fst snd]. apply sameReply_sent. repeat split.
  apply (factsToString_sameUpToOrder
           ("Neat! Just so you know, this is what you already told me:"
              +:+ nl)
           (nl +:+ "You can tell me more, or change your opinion on something.")).
Qed.

End TwoRuns.

(** C8 as stated fails: with the facts age 30 and colour blue, two runs of
    the show command that range over the map in different orders send
    different texts. *)
Lemma reply_text_depends_on_iteration_order :
  let show := inbound (commandMessage "show_data") in
  visits_all forwards /\ visits_all backwards
  /\ map Body (snd (ProcessUpdate forwards show toldTwoFacts []))
     <> map Body (snd (ProcessUpdate backwards show toldTwoFacts [])).
Proof.
  split; [apply visits_all_forwards|]. split; [apply visits_all_backwards|].
  vm_compute. discriminate.
Qed.

(** C8, amended: two runs on the same session and the same update leave
    the same session (state, pending category, facts, time stamp) and send
    messages to the same chats with the same keyboards; the texts are the
    same words around the facts of the session, and only the order in
    which the facts are listed, which is the order of the map iteration,
    may differ. *)
Theorem two_runs_agree_up_to_listing_order (order1 order2 : MapOrder)
  (update : Update) (session : UserSession) (bot : BotAPI) :
  visits_all order1 -> visits_all order2 ->
  fst (ProcessUpdate order1 update session bot)
  = fst (ProcessUpdate order2 update session bot)
  /\ Forall2
       (sameReply (UserData (fst (ProcessUpdate order1 update session bot))))
       (snd (ProcessUpdate order1 update session bot))
       (snd (ProcessUpdate order2 update session bot)).
Proof.
  intros Hall1 Hall2. unfold ProcessUpdate.
  destruct (Msg update) as [m|]; [|split; [reflexivity|apply sameReply_unsent]].
  cbv zeta.
  repeat match goal with
         | |- context [if ?c then _ else _] => destruct c
         end;
    first [ now apply handleStart_two_runs
          | now apply handleShowData_two_runs
          | now apply handleDone_two_runs
          | now apply handleReceivedInformation_two_runs
          | split; [reflexivity | apply sameReply_unsent]
          | split; [reflexivity | apply sameReply_sent, sameReply_refl] ].
Qed.

Lemma two_runs_agree_up_to_listing_order_witness :
  fst (ProcessUpdate forwards (inbound (commandMessage "show_data"))
         toldTwoFacts [])
  = fst (ProcessUpdate backwards (inbound (commandMessage "show_data"))
           toldTwoFacts [])
  /\ Forall2
       (sameReply
          (UserData
             (fst (ProcessUpdate forwards
                     (inbound (commandMessage "show_data")) toldTwoFacts []))))
       (snd (ProcessUpdate forwards (inbound (commandMessage "show_data"))
               toldTwoFacts []))
       (snd (ProcessUpdate backwards (inbound (commandMessage "show_data"))
               toldTwoFacts [])).
Proof.
  apply (two_runs_agree_up_to_listing_order forwards backwards
           (inbound (commandMessage "show_data")) toldTwoFacts []).
  - intros m. reflexivity.
  - intros m. symmetry. apply Permutation_rev.
Defined.

(** ** Lower-case keys *)




(** * Further properties *)

(** ** The store *)

Lemma setSessions_same (s : ThreadSafeStorage) : setSessions (Sessions s) s = s.
Proof. now destruct s. Qed.

(** X1: [Load] leaves the store as it is when there is no snapshot to
    read: the file is missing or cannot be read, it is empty, or its text
    is not JSON. *)
Theorem Load_without_snapshot_keeps_store
  (parse : list Byte.byte -> option Json.Value)
  (decodeOther :
     Json.Value -> gmap Z UserSession -> gmap Z UserSession * bool)
  (s : ThreadSafeStorage) (fs : FileSystem) :
  match ReadFile fs (FilePath s) with
  | inr _ => True
  | inl data => data = [] \/ parse data = None
  end ->
  Load parse decodeOther s fs = s.
Proof.
  unfold Load. destruct (ReadFile fs (FilePath s)) as [data|e]; [|reflexivity].
  intros [-> | Hparse]; [reflexivity|].
  destruct (length data =? 0)%nat; [reflexivity|].
  unfold Unmarshal. rewrite Hparse. apply setSessions_same.
Qed.

Lemma Load_without_snapshot_keeps_store_witness :
  Load readJson giveUp testStorage emptyDisk = testStorage.
Proof.
  apply (Load_without_snapshot_keeps_store readJson giveUp testStorage
           emptyDisk).
  vm_compute. exact I.
Defined.

(** X2: [Save] writes one file.  Every other path reads after it as it did
    before, and the paths the system refuses stay the same. *)
Theorem Save_touches_only_its_file
  (render : Json.Value -> list Byte.byte)
  (s : ThreadSafeStorage) (fs : FileSystem) (name : string) :
  name <> FilePath s ->
  ReadFile (Save render s fs) name = ReadFile fs name
  /\ denied (Save render s fs) = denied fs.
Proof.
  intros Hname. unfold Save, MarshalIndent, WriteFile, ReadFile.
  destruct (decide (FilePath s ∈ denied fs)); cbn [fst files denied];
    [split; reflexivity|].
  split; [|reflexivity].
  destruct (decide (name ∈ denied fs)); [reflexivity|].
  now rewrite lookup_insert_ne by congruence.
Qed.

Lemma Save_touches_only_its_file_witness :
  ReadFile (Save writeJson testStorage emptyDisk) "conversationbot.json"
  = ReadFile emptyDisk "conversationbot.json"
  /\ denied (Save writeJson testStorage emptyDisk) = denied emptyDisk.
Proof.
  apply (Save_touches_only_its_file writeJson testStorage emptyDisk
           "conversationbot.json").
  vm_compute. discriminate.
Defined.



(** X4: the snapshot is rewritten whole.  Saving a store over the file of
    an earlier save leaves the disk as if only the later store had been
    saved. *)
Theorem Save_overwrites_earlier_save
  (render : Json.Value -> list Byte.byte)
  (earlier later : ThreadSafeStorage) (fs : FileSystem) :
  FilePath earlier = FilePath later ->
  Save render later (Save render earlier fs) = Save render later fs.
Proof.
  intros Hpath. unfold Save, MarshalIndent, WriteFile. rewrite Hpath.
  destruct (decide (FilePath later ∈ denied fs)) as [Hin|Hout];
    cbn [fst files denied].
  - now destruct (decide (FilePath later ∈ denied fs)).
  - destruct (decide (FilePath later ∈ denied fs)); [contradiction|].
    cbn [fst]. now rewrite insert_insert_eq.
Qed.

Lemma Save_overwrites_earlier_save_witness :
  Save writeJson testStorage
    (Save writeJson (mkStorage ∅ "test_storage.json") emptyDisk)
  = Save writeJson testStorage emptyDisk.
Proof.
  apply (Save_overwrites_earlier_save writeJson
           (mkStorage ∅ "test_storage.json") testStorage emptyDisk).
  reflexivity.
Defined.

(** X5: [GetOrCreateSession] is idempotent and touches one user.  After a
    first call, a second call for the same user returns the same session
    and leaves the store as the first call left it; [GetSession] finds
    that session; the sessions of all other users and the path are as
    before. *)
Theorem GetOrCreateSession_twice (s : ThreadSafeStorage) (userID : Z) :
  let first := GetOrCreateSession s userID in
  GetOrCreateSession (fst first) userID = first
  /\ GetSession (fst first) userID = Some (snd first)
  /\ (forall other, other <> userID ->
        GetSession (fst first) other = GetSession s other)
  /\ FilePath (fst first) = FilePath s.
Proof.
  unfold GetOrCreateSession, GetSession.
  destruct (Sessions s !! userID) as [session|] eqn:Hlook; cbn [fst snd].
  - rewrite Hlook. repeat split.
    unfold lookup_total, map_lookup_total. now rewrite Hlook.
  - cbn [setSessions Sessions FilePath].
    unfold lookup_total, map_lookup_total.
    rewrite !lookup_insert_eq. unfold setSessions. cbn [default Sessions].
    rewrite lookup_insert_eq.
    split; [reflexivity|]. split; [reflexivity|]. split; [|reflexivity].
    intros other Hother. now rewrite lookup_insert_ne by congruence.
Qed.

(** ** The filters *)

Lemma isCustom_not_regular (text : string) :
  isCustom text = true -> isRegular text = false.
Proof.
  intros Hc. destruct (isRegular text) eqn:Hr; [|reflexivity].
  apply isRegular_spec in Hr. simpl in Hr.
  destruct Hr as [<-|[<-|[<-|[]]]]; discriminate Hc.
Qed.

(** X6: no text passes two of the three filters of [ProcessUpdate], so
    the order in which the state machine tests them decides nothing. *)
Theorem filters_exclude_each_other (text : string) :
  isDone text && isRegular text = false
  /\ isDone text && isCustom text = false
  /\ isRegular text && isCustom text = false.
Proof.
  repeat split.
  - destruct (isDone text) eqn:Hd; [|reflexivity].
    now rewrite (isDone_not_regular _ Hd).
  - destruct (isDone text) eqn:Hd; [|reflexivity].
    now rewrite (isDone_not_custom _ Hd).
  - destruct (isCustom text) eqn:Hc; [|apply andb_false_r].
    now rewrite (isCustom_not_regular _ Hc).
Qed.

Lemma run_dot_ascii (a : ascii) (rest : string) :
  (nat_of_ascii a < 128)%nat -> a <> ascii_of_nat 10 ->
  run AnyCharNotNL (String a rest) = [rest].
Proof.
  intros Hlow Hnl. cbn [run].
  destruct (Ascii.eqb_spec a (ascii_of_nat 10)) as [->|_]; [contradiction|].
  unfold runeLen. apply Nat.ltb_lt in Hlow. now rewrite Hlow.
Qed.

(** X7: the three dots of the pattern of the custom request are wildcards:
    the words Something else followed by any three ASCII characters other
    than a line feed are taken as the request, whatever the characters. *)
Theorem custom_request_takes_any_three_characters (a b c : ascii) :
  (nat_of_ascii a < 128)%nat -> a <> ascii_of_nat 10 ->
  (nat_of_ascii b < 128)%nat -> b <> ascii_of_nat 10 ->
  (nat_of_ascii c < 128)%nat -> c <> ascii_of_nat 10 ->
  isCustom
    ("Something else" +:+ String a (String b (String c EmptyString)))
  = true.
Proof.
  intros Ha Ha' Hb Hb' Hc Hc'. unfold isCustom, reCustom, MatchString.
  change (run (Concat ?r1 ?r2) ?s) with (flat_map (run r2) (run r1 s)).
  rewrite run_literal_exact.
  change (startsWith "Something else"
            ("Something else" +:+ String a (String b (String c EmptyString))))
    with (Some (String a (String b (String c EmptyString)))).
  cbn [flat_map app].
  change (run (Concat ?r1 ?r2) ?s) with (flat_map (run r2) (run r1 s)).
  rewrite run_dot_ascii by assumption. cbn [flat_map app].
  change (run (Concat ?r1 ?r2) ?s) with (flat_map (run r2) (run r1 s)).
  rewrite run_dot_ascii by assumption. cbn [flat_map app].
  rewrite run_dot_ascii by assumption. reflexivity.
Qed.

Lemma custom_request_takes_any_three_characters_witness :
  isCustom ("Something else" +:+ "?!x") = true.
Proof.
  apply (custom_request_takes_any_three_characters "?" "!" "x");
    first [ vm_compute; lia | discriminate ].
Defined.

(** ** One update *)

(** X8: one update makes the bot send one message at most, after those it
    has sent, and to the chat the update came from. *)
Theorem ProcessUpdate_sends_one_reply_at_most (order : MapOrder)
  (update : Update) (session : UserSession) (bot : BotAPI) :
  exists replies,
    snd (ProcessUpdate order update session bot) = (bot ++ replies)%list
    /\ (length replies <= 1)%nat
    /\ forall r, In r replies ->
         exists m, Msg update = Some m /\ ToChat r = ChatID m.
Proof.
  unfold ProcessUpdate.
  destruct (Msg update) as [m|].
  2:{ exists []. rewrite app_nil_r. repeat split; [simpl; lia|intros r []]. }
  cbv zeta.
  repeat match goal with
         | |- context [if ?c then _ else _] => destruct c
         end;
    first
      [ exists []; rewrite app_nil_r;
        repeat split; [simpl; lia | intros r []]
      | eexists [_]; split; [reflexivity|];
        split; [simpl; lia|];
        intros r [<-|[]]; exists m; split; reflexivity ].
Qed.

(** X9: an update changes at most one fact, the one under the pending
    category, and removes none: every other key keeps its value, and every
    key that had a value has one afterwards. *)
Theorem ProcessUpdate_changes_pending_fact_only (order : MapOrder)
  (update : Update) (session : UserSession) (bot : BotAPI) :
  let session' := fst (ProcessUpdate order update session bot) in
  (forall k, k <> CurrentKey session ->
     UserData session' !! k = UserData session !! k)
  /\ (forall k, is_Some (UserData session !! k) ->
        is_Some (UserData session' !! k)).
Proof.
  unfold ProcessUpdate.
  destruct (Msg update) as [m|]; [|split; auto].
  cbv zeta.
  repeat match goal with
         | |- context [if ?c then _ else _] => destruct c
         end;
    cbn [fst handleStart handleShowData handleDone handleRegularChoice
           handleCustomChoice handleReceivedInformation UserData setState
           setCurrentKey setUserData CurrentKey];
    (split; [intros k Hk | intros k Hsome]); auto.
  - now rewrite lookup_insert_ne by congruence.
  - destruct (decide (CurrentKey session = k)) as [->|Hne].
    + rewrite lookup_insert_eq. eauto.
    + now rewrite lookup_insert_ne.
Qed.

Lemma String_eqb_false (a b : string) : a <> b -> String.eqb a b = false.
Proof. intros Hne. now apply String.eqb_neq. Qed.

(** X10: a command that is neither start nor show_data is handled as the
    text it is: the update is processed as the same message without the
    command flag would be. *)
Theorem unknown_command_is_handled_as_text (order : MapOrder) (m : Message)
  (session : UserSession) (bot : BotAPI) :
  Command m <> "start" -> Command m <> "show_data" ->
  ProcessUpdate order (mkUpdate (Some m)) session bot
  = ProcessUpdate order
      (mkUpdate
         (Some (mkMessage (Text m) false (Command m) (ChatID m) (FromID m)
                  (Date m))))
      session bot.
Proof.
  intros Hstart Hshow. unfold ProcessUpdate. cbn [Msg IsCommand Command Text].
  rewrite (String_eqb_false _ _ Hstart), (String_eqb_false _ _ Hshow).
  now rewrite !andb_false_r.
Qed.

Lemma unknown_command_is_handled_as_text_witness :
  ProcessUpdate forwards (mkUpdate (Some helpCommand)) askedAge []
  = ProcessUpdate forwards
      (mkUpdate
         (Some (mkMessage (Text helpCommand) false (Command helpCommand)
                  (ChatID helpCommand) (FromID helpCommand)
                  (Date helpCommand))))
      askedAge [].
Proof.
  apply (unknown_command_is_handled_as_text forwards helpCommand askedAge []);
    discriminate.
Defined.

(** X11: what the state machine ignores.  A text that is no command
    changes nothing and gets no reply when the session waits at the menu
    and the text passes none of the three filters, and when the state of
    the session is none of the three states. *)
Theorem unmatched_text_is_ignored (order : MapOrder) (update : Update)
  (m : Message) (session : UserSession) (bot : BotAPI) :
  Msg update = Some m -> IsCommand m = false ->
  (State session = StateChoosing
   /\ isRegular (Text m) = false /\ isCustom (Text m) = false
   /\ isDone (Text m) = false)
  \/ (State session <> StateChoosing
      /\ State session <> StateTypingChoice
      /\ State session <> StateTypingReply) ->
  ProcessUpdate order update session bot = (session, bot).
Proof.
  intros Hm Hc Hcase. rewrite (route_text _ _ m) by assumption.
  destruct Hcase as [(Hs & Hr & Hcu & Hd) | (H0 & H2 & H1)].
  - now rewrite Hs, Hr, Hcu, Hd.
  - apply Z.eqb_neq in H0, H2, H1. now rewrite H0, H2, H1.
Qed.

Lemma unmatched_text_is_ignored_witness :
  ProcessUpdate forwards (inbound (textMessage "hello")) toldTwoFacts []
  = (toldTwoFacts, [])
  /\ ProcessUpdate forwards (inbound (textMessage "Age")) strangeState []
     = (strangeState, []).
Proof.
  split.
  - apply (unmatched_text_is_ignored forwards (inbound (textMessage "hello"))
             (textMessage "hello") toldTwoFacts []);
      [reflexivity | reflexivity | left; repeat split].
  - apply (unmatched_text_is_ignored forwards (inbound (textMessage "Age"))
             (textMessage "Age") strangeState []);
      [reflexivity | reflexivity | right; repeat split; discriminate].
Defined.

(** ** Several updates *)





Lemma ProcessUpdate_state (order : MapOrder) (update : Update)
  (session : UserSession) (bot : BotAPI) :
  let session' := fst (ProcessUpdate order update session bot) in
  LastUpdated session' = LastUpdated session
  /\ (State session' = State session
      \/ State session' = StateChoosing
      \/ State session' = StateTypingReply
      \/ State session' = StateTypingChoice).
Proof.
  unfold ProcessUpdate.
  destruct (Msg update) as [m|]; [|split; auto].
  cbv zeta.
  repeat match goal with
         | |- context [if ?c then _ else _] => destruct c
         end;
    (split; [reflexivity | cbn; auto]).
Qed.

(** X14: the state of a session the state machine can bring a new user
    to is always one of the three states. *)
Theorem reachable_state_is_one_of_three (session : UserSession) :
  reachable session ->
  State session = StateChoosing
  \/ State session = StateTypingReply
  \/ State session = StateTypingChoice.
Proof.
  induction 1 as [|order update session bot _ IH _]; [left; reflexivity|].
  destruct (ProcessUpdate_state order update session bot) as [_ [Hs|Hs]];
    [rewrite Hs; exact IH | exact Hs].
Qed.

Lemma reachable_state_is_one_of_three_witness :
  State afterAge17 = StateChoosing
  \/ State afterAge17 = StateTypingReply
  \/ State afterAge17 = StateTypingChoice.
Proof.
  apply (reachable_state_is_one_of_three afterAge17).
  unfold afterAge17.
  apply reachable_step; [apply reachable_step; [apply reachable_new|]|];
    intros m; reflexivity.
Defined.

(** ** The greeting *)

(** X15: the greeting of the start command.  For a session without facts
    it is the plain invitation; for one with facts it names every
    category the session has a fact for, once each, separated by commas.
    Both come with the main keyboard, and the session moves to the menu. *)
Theorem start_greets_by_known_categories (order : MapOrder) (update : Update)
  (m : Message) (session : UserSession) (bot : BotAPI) :
  visits_all order ->
  Msg update = Some m -> IsCommand m = true -> Command m = "start" ->
  exists greeting,
    ProcessUpdate order update session bot
    = (setState StateChoosing session,
       (bot ++ [mkMessageConfig (ChatID m) greeting mainKeyboard])%list)
    /\ if decide (UserData session = ∅) then
         greeting
         = "Hi! My name is Doctor Botter. I will hold a more complex conversation with you. Why don't you tell me something about yourself?"
       else
         exists names,
           names ≡ₚ map fst (map_to_list (UserData session))
           /\ greeting
              = "Hi! My name is Doctor Botter. You already told me your "
                  +:+ Join names ", "
                  +:+ ". Why don't you tell me something more about yourself? Or change anything I already know.".
Proof.
  intros Hall Hm Hc Hn. rewrite (route_start _ _ m) by assumption.
  unfold handleStart. cbv zeta. eexists. split; [reflexivity|].
  destruct (decide (UserData session = ∅)) as [Hempty|Hfacts].
  - rewrite Hempty, map_size_empty. reflexivity.
  - assert (Hsize : (0 <? size (UserData session))%nat = true).
    { apply Nat.ltb_lt. apply Nat.neq_0_lt_0.
      intros Hz. now apply map_size_empty_iff in Hz. }
    rewrite Hsize, fold_left_snoc.
    exists (map fst (order (UserData session))). split; [|reflexivity].
    apply Permutation_map, Hall.
Qed.

Lemma start_greets_by_known_categories_witness :
  exists greeting,
    ProcessUpdate backwards (inbound (commandMessage "start")) toldTwoFacts []
    = (setState StateChoosing toldTwoFacts,
       ([] ++ [mkMessageConfig (ChatID (commandMessage "start")) greeting
                 mainKeyboard])%list)
    /\ if decide (UserData toldTwoFacts = ∅) then
         greeting
         = "Hi! My name is Doctor Botter. I will hold a more complex conversation with you. Why don't you tell me something about yourself?"
       else
         exists names,
           names ≡ₚ map fst (map_to_list (UserData toldTwoFacts))
           /\ greeting
              = "Hi! My name is Doctor Botter. You already told me your "
                  +:+ Join names ", "
                  +:+ ". Why don't you tell me something more about yourself? Or change anything I already know.".
Proof.
  apply (start_greets_by_known_categories backwards
           (inbound (commandMessage "start")) (commandMessage "start")
           toldTwoFacts []).
  - intros facts. symmetry. apply Permutation_rev.
  - reflexivity.
  - reflexivity.
  - reflexivity.
Defined.

(** ** Done, where it is handled as Done *)

(** X16: Done at the menu or in place of an answer.  The pending category
    is dropped without a fact being recorded, the facts stay as they are,
    the session goes to the menu, and the one reply sums up the facts, one
    line each, and takes the keyboard away. *)
Theorem done_sums_up_and_returns_to_menu (order : MapOrder) (update : Update)
  (m : Message) (session : UserSession) (bot : BotAPI) :
  visits_all order ->
  Msg update = Some m -> IsCommand m = false -> isDone (Text m) = true ->
  State session = StateChoosing \/ State session = StateTypingReply ->
  exists facts,
    facts ≡ₚ map_to_list (UserData session)
    /\ ProcessUpdate order update session bot
       = (mkUserSession StateChoosing EmptyString (UserData session)
            (LastUpdated session),
          (bot ++ [mkMessageConfig (ChatID m)
                    ("I learned these facts about you:" +:+ nl
                       +:+ Join (map factLine facts) nl +:+ nl
                       +:+ "Until next time!")
                    (RemoveKeyboard true)])%list).
Proof.
  intros Hall Hm Hc Hd Hs. exists (order (UserData session)).
  split; [apply Hall|].
  rewrite (route_text _ _ m) by assumption.
  rewrite Hd, (isDone_not_regular _ Hd), (isDone_not_custom _ Hd).
  destruct Hs as [-> | ->]; cbn [Z.eqb StateChoosing StateTypingReply
                                   StateTypingChoice Pos.eqb negb];
    unfold handleDone; now rewrite factsToString_lines.
Qed.

Lemma done_sums_up_and_returns_to_menu_witness :
  exists facts,
    facts ≡ₚ map_to_list (UserData askedAge)
    /\ ProcessUpdate backwards (inbound (textMessage "done")) askedAge []
       = (mkUserSession StateChoosing EmptyString (UserData askedAge)
            (LastUpdated askedAge),
          ([] ++ [mkMessageConfig (ChatID (textMessage "done"))
                    ("I learned these facts about you:" +:+ nl
                       +:+ Join (map factLine facts) nl +:+ nl
                       +:+ "Until next time!")
                    (RemoveKeyboard true)])%list).
Proof.
  apply (done_sums_up_and_returns_to_menu backwards
           (inbound (textMessage "done")) (textMessage "done") askedAge []).
  - intros facts. symmetry. apply Permutation_rev.
  - reflexivity.
  - reflexivity.
  - reflexivity.
  - right. reflexivity.
Defined.



(** ** The loop of [main] *)

Lemma session_ignores_bot (order : MapOrder) (update : Update)
  (session : UserSession) (bot : BotAPI) :
  fst (ProcessUpdate order update session bot)
  = fst (ProcessUpdate order update session []).
Proof.
  unfold ProcessUpdate.
  destruct (Msg update) as [m|]; [|reflexivity].
  cbv zeta.
  repeat match goal with
         | |- context [if ?c then _ else _] => destruct c
         end; reflexivity.
Qed.

Lemma serveUpdate_no_message (render : Json.Value -> list Byte.byte)
  (world : World) (step : MapOrder * Update) :
  Msg (snd step) = None -> serveUpdate render world step = world.
Proof. intros Hm. unfold serveUpdate. now rewrite Hm. Qed.

Lemma serveUpdate_sessions (render : Json.Value -> list Byte.byte)
  (world : World) (step : MapOrder * Update) (m : Message) :
  Msg (snd step) = Some m ->
  Sessions (fst (fst (serveUpdate render world step)))
  = <[FromID m :=
        fst (ProcessUpdate (fst step) (snd step)
               (default newSession (Sessions (fst (fst world)) !! FromID m))
               (snd (fst world)))]> (Sessions (fst (fst world))).
Proof.
  intros Hm. unfold serveUpdate. rewrite Hm. cbn [fst snd].
  unfold GetOrCreateSession.
  destruct (Sessions (fst (fst world)) !! FromID m) as [session|] eqn:Hlook;
    cbn [fst snd setSessions Sessions default];
    unfold lookup_total, map_lookup_total.
  - now rewrite Hlook.
  - cbn [Sessions]. rewrite lookup_insert_eq. cbn [default].
    now rewrite insert_insert_eq.
Qed.

Lemma Save_denied (render : Json.Value -> list Byte.byte)
  (s : ThreadSafeStorage) (fs : FileSystem) :
  denied (Save render s fs) = denied fs.
Proof.
  unfold Save, MarshalIndent, WriteFile.
  now destruct (decide (FilePath s ∈ denied fs)).
Qed.

Lemma GetOrCreateSession_path (s : ThreadSafeStorage) (userID : Z) :
  FilePath (fst (GetOrCreateSession s userID)) = FilePath s.
Proof.
  unfold GetOrCreateSession. now destruct (Sessions s !! userID).
Qed.

Lemma serveUpdate_path (render : Json.Value -> list Byte.byte)
  (world : World) (step : MapOrder * Update) :
  FilePath (fst (fst (serveUpdate render world step)))
  = FilePath (fst (fst world))
  /\ denied (snd (serveUpdate render world step)) = denied (snd world).
Proof.
  unfold serveUpdate. destruct (Msg (snd step)) as [m|]; [|split; reflexivity].
  cbn [fst snd]. rewrite Save_denied. split; [|reflexivity].
  cbn [setSessions FilePath]. apply GetOrCreateSession_path.
Qed.

(** X17: users do not touch each other's sessions, and no session is
    lost.  The session the store has for a user after the loop is the one
    it had before (a new one if it had none) taken through that user's own
    updates, in the order they came; the updates of other users, and
    updates without a message, play no part. *)
Theorem mainLoop_session_follows_own_updates
  (render : Json.Value -> list Byte.byte)
  (updates : list (MapOrder * Update)) (world : World) (userID : Z) :
  GetSession (fst (fst (mainLoop render updates world))) userID
  = fold_left ownStep (List.filter (sentBy userID) updates)
      (GetSession (fst (fst world)) userID).
Proof.
  unfold mainLoop. revert world.
  induction updates as [|step updates IH]; intros world; [reflexivity|].
  cbn [fold_left List.filter]. rewrite IH. clear IH.
  unfold sentBy at 2, GetSession.
  destruct (Msg (snd step)) as [m|] eqn:Hm.
  - rewrite (serveUpdate_sessions render world step m Hm).
    destruct (bool_decide_reflect (FromID m = userID)) as [->|Hne].
    + cbn [fold_left]. rewrite lookup_insert_eq. unfold ownStep.
      now rewrite session_ignores_bot.
    + now rewrite lookup_insert_ne.
  - now rewrite serveUpdate_no_message.
Qed.

Lemma serveUpdate_saves (render : Json.Value -> list Byte.byte)
  (world : World) (step : MapOrder * Update) (m : Message) :
  Msg (snd step) = Some m ->
  FilePath (fst (fst world)) ∉ denied (snd world) ->
  files (snd (serveUpdate render world step))
    !! FilePath (fst (fst world))
  = Some
      (render
         (Json.encodeSessions
            (Sessions (fst (fst (serveUpdate render world step)))))).
Proof.
  intros Hm Hpath. unfold serveUpdate. rewrite Hm. cbn [fst snd].
  unfold Save, MarshalIndent, WriteFile.
  cbn [setSessions FilePath Sessions]. rewrite GetOrCreateSession_path.
  destruct (decide (FilePath (fst (fst world)) ∈ denied (snd world)));
    [contradiction|].
  cbn [fst files]. now rewrite lookup_insert_eq.
Qed.

Lemma mainLoop_saved_invariant (render : Json.Value -> list Byte.byte)
  (updates : list (MapOrder * Update)) (world : World) :
  FilePath (fst (fst world)) ∉ denied (snd world) ->
  files (snd world) !! FilePath (fst (fst world))
  = Some (render (Json.encodeSessions (Sessions (fst (fst world)))))
  \/ existsb hasMessage updates = true ->
  FilePath (fst (fst (mainLoop render updates world)))
  = FilePath (fst (fst world))
  /\ denied (snd (mainLoop render updates world)) = denied (snd world)
  /\ files (snd (mainLoop render updates world))
       !! FilePath (fst (fst world))
     = Some
         (render
            (Json.encodeSessions
               (Sessions (fst (fst (mainLoop render updates world)))))).
Proof.
  unfold mainLoop. revert world.
  induction updates as [|step updates IH]; intros world Hpath Hsaved.
  - cbn [fold_left]. destruct Hsaved as [Hsaved|Hex]; [auto|discriminate Hex].
  - cbn [fold_left].
    destruct (serveUpdate_path render world step) as [Hp Hd].
    specialize (IH (serveUpdate render world step)).
    rewrite Hp, Hd in IH. apply IH; [assumption|].
    cbn [existsb] in Hsaved. unfold hasMessage at 1 in Hsaved.
    destruct (Msg (snd step)) as [m|] eqn:Hm.
    + left. now apply (serveUpdate_saves render world step m).
    + rewrite serveUpdate_no_message by assumption. exact Hsaved.
Qed.

(** X18: the loop keeps the snapshot current.  When the path can be
    written and at least one update carried a message, the file holds,
    after the loop, the document of the sessions as the store has them
    then. *)
Theorem mainLoop_keeps_snapshot_current
  (render : Json.Value -> list Byte.byte)
  (updates : list (MapOrder * Update)) (world : World) :
  FilePath (fst (fst world)) ∉ denied (snd world) ->
  existsb hasMessage updates = true ->
  files (snd (mainLoop render updates world))
    !! FilePath (fst (fst (mainLoop render updates world)))
  = Some
      (render
         (Json.encodeSessions
            (Sessions (fst (fst (mainLoop render updates world)))))).
Proof.
  intros Hpath Hsome.
  destruct (mainLoop_saved_invariant render updates world Hpath
              (or_intror Hsome)) as (Hp & _ & Hfile).
  now rewrite Hp.
Qed.

Lemma mainLoop_keeps_snapshot_current_witness :
  files (snd (mainLoop writeJson twoUsers startOfDay))
    !! FilePath (fst (fst (mainLoop writeJson twoUsers startOfDay)))
  = Some
      (writeJson
         (Json.encodeSessions
            (Sessions (fst (fst (mainLoop writeJson twoUsers startOfDay)))))).
Proof.
  apply (mainLoop_keeps_snapshot_current writeJson twoUsers startOfDay).
  - vm_compute. discriminate.
  - reflexivity.
Defined.






Lemma fitsInt64_state (n : Z) :
  n = StateChoosing \/ n = StateTypingReply \/ n = StateTypingChoice ->
  Json.fitsInt64 n = true.
Proof. intros [-> | [-> | ->]]; reflexivity. Qed.

Lemma serveUpdate_fits (render : Json.Value -> list Byte.byte)
  (world : World) (step : MapOrder * Update) :
  fitsStore (fst (fst world)) -> fitsSender step ->
  fitsStore (fst (fst (serveUpdate render world step))).
Proof.
  intros Hfit Hsender.
  destruct (Msg (snd step)) as [m|] eqn:Hm;
    [|now rewrite serveUpdate_no_message].
  intros id u. rewrite (serveUpdate_sessions render world step m Hm).
  destruct (decide (FromID m = id)) as [<-|Hne].
  - rewrite lookup_insert_eq. intros [= <-].
    split; [now apply Hsender|].
    pose proof (ProcessUpdate_state (fst step) (snd step)
                  (default newSession
                     (Sessions (fst (fst world)) !! FromID m))
                  (snd (fst world))) as [Hupd Hstate].
    cbv zeta in Hupd, Hstate. rewrite Hupd.
    assert (Hold : Json.fitsInt64
                     (State (default newSession
                               (Sessions (fst (fst world)) !! FromID m)))
                   = true
                   /\ Json.fitsInt64
                        (LastUpdated
                           (default newSession
                              (Sessions (fst (fst world)) !! FromID m)))
                      = true).
    { destruct (Sessions (fst (fst world)) !! FromID m) as [old|] eqn:Hlook;
        cbn [default]; [|split; reflexivity].
      destruct (Hfit _ _ Hlook) as (_ & Hs & Hu). now split. }
    destruct Hold as [Hs Hu]. split; [|exact Hu].
    destruct Hstate as [-> | Hthree]; [exact Hs|].
    now apply fitsInt64_state.
  - rewrite lookup_insert_ne by assumption. apply Hfit.
Qed.

Lemma mainLoop_fits (render : Json.Value -> list Byte.byte)
  (updates : list (MapOrder * Update)) (world : World) :
  fitsStore (fst (fst world)) -> Forall fitsSender updates ->
  fitsStore (fst (fst (mainLoop render updates world))).
Proof.
  unfold mainLoop. revert world.
  induction updates as [|step updates IH]; intros world Hfit Hall;
    [exact Hfit|].
  inversion Hall as [|? ? Hstep Hrest]; subst. cbn [fold_left].
  apply IH; [now apply serveUpdate_fits | exact Hrest].
Qed.

Lemma NewStorage_reads_back
  (render : Json.Value -> list Byte.byte)
  (parse : list Byte.byte -> option Json.Value)
  (decodeOther :
     Json.Value -> gmap Z UserSession -> gmap Z UserSession * bool)
  (fs : FileSystem) (filePath : string) (s : ThreadSafeStorage) :
  files fs !! filePath = Some (render (Json.encodeSessions (Sessions s))) ->
  filePath ∉ denied fs ->
  fitsStore s ->
  parse (render (Json.encodeSessions (Sessions s)))
  = Some (Json.encodeSessions (Sessions s)) ->
  render (Json.encodeSessions (Sessions s)) <> [] ->
  Sessions (NewStorage parse decodeOther filePath fs) = Sessions s.
Proof.
  intros Hfile Hpath Hfit Hread Hlen.
  unfold NewStorage, Load, ReadFile. cbn [FilePath].
  destruct (decide (filePath ∈ denied fs)); [contradiction|].
  rewrite Hfile.
  destruct (render (Json.encodeSessions (Sessions s))) as [|b data] eqn:Hdoc;
    [contradiction|].
  cbn [length Nat.eqb Sessions]. unfold Unmarshal.
  rewrite Hread, decodeSessions_encodeSessions by exact Hfit.
  cbn [fst setSessions Sessions]. now rewrite (right_id_L ∅ (∪)).
Qed.

(** X20: what the loop has served survives a restart.  When the path can
    be written, at least one update carried a message, and the
    identifiers are 64-bit integers, a store made from the disk after the
    loop has the sessions the store of the loop ended with.  What is asked
    of the library: the text written for that last document is not empty
    and reads back as the document. *)
Theorem restart_after_mainLoop_restores_sessions
  (render : Json.Value -> list Byte.byte)
  (parse : list Byte.byte -> option Json.Value)
  (decodeOther :
     Json.Value -> gmap Z UserSession -> gmap Z UserSession * bool)
  (updates : list (MapOrder * Update)) (world : World) :
  FilePath (fst (fst world)) ∉ denied (snd world) ->
  existsb hasMessage updates = true ->
  fitsStore (fst (fst world)) -> Forall fitsSender updates ->
  parse
    (render
       (Json.encodeSessions
          (Sessions (fst (fst (mainLoop render updates world))))))
  = Some
      (Json.encodeSessions
         (Sessions (fst (fst (mainLoop render updates world))))) ->
  render
    (Json.encodeSessions
       (Sessions (fst (fst (mainLoop render updates world)))))
  <> [] ->
  Sessions
    (NewStorage parse decodeOther (FilePath (fst (fst world)))
       (snd (mainLoop render updates world)))
  = Sessions (fst (fst (mainLoop render updates world))).
Proof.
  intros Hpath Hsome Hfit Hsenders Hread Hlen.
  destruct (mainLoop_saved_invariant render updates world Hpath
              (or_intror Hsome)) as (_ & Hd & Hfile).
  apply (NewStorage_reads_back render); try assumption.
  - now rewrite Hd.
  - now apply mainLoop_fits.
Qed.

Lemma restart_after_mainLoop_restores_sessions_witness :
  Sessions
    (NewStorage readJson giveUp (FilePath (fst (fst startOfDay)))
       (snd (mainLoop writeJson twoUsers startOfDay)))
  = Sessions (fst (fst (mainLoop writeJson twoUsers startOfDay))).
Proof.
  apply (restart_after_mainLoop_restores_sessions writeJson readJson giveUp
           twoUsers startOfDay).
  - vm_compute. discriminate.
  - reflexivity.
  - intros id u Hu. cbn in Hu. rewrite lookup_empty in Hu. discriminate Hu.
  - repeat constructor; intros m Hm; cbn in Hm;
      first [discriminate Hm | injection Hm as <-; reflexivity].
  - vm_compute. reflexivity.
  - vm_compute. discriminate.
Defined.
